(** * Session lifecycle of the display manager (src/session.c)

    A shallow embedding of [session.c]: the session object, its start /
    rollback protocol, the stop protocol, the locking calls and the
    sequence run in the forked child before the command is executed.

    The collaborators of [session.c] (PAM, ConsoleKit, the generic
    [Process] class, the C library) are not part of the file.  Every call
    that leaves [session.c] is recorded in an event trace, and every value
    such a call returns is read from a [World] record, so that a statement
    "close is called once" is a statement about the trace, and "if setuid
    fails" a statement about the world. *)

From Stdlib Require Import ZArith String Ascii.
From stdpp Require Import base option list gmap strings.

Local Open Scope string_scope.
Local Open Scope list_scope.
Local Open Scope Z_scope.

(** ** GLib string helpers *)

Module GLib.

(** Text before the first occurrence of [d], and the text after it when
    [d] occurs at all. *)
Fixpoint split_first (d : ascii) (s : string) : string * option string :=
  match s with
  | EmptyString => (EmptyString, None)
  | String c s' =>
      if Ascii.eqb c d then (EmptyString, Some s')
      else let '(a, b) := split_first d s' in (String c a, b)
  end.

(** [g_strsplit (s, d, 2)] for a delimiter of one character: at most two
    tokens, the second holding the remainder verbatim; the empty string
    splits into the empty vector. *)
Definition g_strsplit_2 (s : string) (d : ascii) : list string :=
  match s with
  | EmptyString => []
  | _ => match split_first d s with
         | (a, Some b) => [a; b]
         | (a, None) => [a]
         end
  end.

(** [g_strjoin (sep, a, b, NULL)]. *)
Definition g_strjoin2 (sep a b : string) : string := a +:+ sep +:+ b.

(** A character occurs in a string. *)
Fixpoint occurs (d : ascii) (s : string) : bool :=
  match s with
  | EmptyString => false
  | String c s' => Ascii.eqb c d || occurs d s'
  end.

End GLib.

(** ** Data model *)

(** The values put in the ConsoleKit parameter table. *)
Inductive GVariant :=
| g_variant_new_int32 (n : Z)
| g_variant_new_string (s : string)
| g_variant_new_boolean (b : bool).

(** The conversion of an integer to [gint32], as it happens to an argument
    of [g_variant_new_int32]: the value modulo 2^32, read as signed. *)
Definition gint32 (z : Z) : Z := (z + 2 ^ 31) mod 2 ^ 32 - 2 ^ 31.

(** Modelled from the spec: [User] of the absent user.c, the spec's
    read-only identity descriptor with name, uid, gid, home directory,
    shell and an optional locale. *)
Record User := mkUser {
  user_get_name : string;
  user_get_uid : Z;
  user_get_gid : Z;
  user_get_home_directory : string;
  user_get_shell : string;
  user_get_locale : option string
}.

(** Modelled from the spec: [PAMSession] of the absent pam-session.c, as
    far as [session.c] reads it: the spec's [get_user()] and
    [get_environment_overrides()], a list of [name=value] strings. *)
Record PAMSession := mkPAMSession {
  pam_session_get_user : User;
  pam_session_get_envlist : option (list string)
}.

(** Modelled from the spec: the [Process] parent class (process.c is not
    part of the sources).  The spec's process abstraction holds the command,
    an environment mapping with unique keys that a repeated [set]
    overwrites, the clear-inherited-environment flag and the running
    state. *)
Record Process := mkProcess {
  env : gmap string string;
  clear_environment : bool;
  process_command : option string;
  is_running : bool
}.

(** [struct SessionPrivate] together with the parent instance. *)
Record Session := mkSession {
  parent_instance : Process;
  log_file : option string;
  log_file_as_user : bool;
  authentication : option PAMSession;
  command : option string;
  console_kit_parameters : gmap string GVariant;
  console_kit_cookie : option string;
  is_greeter : bool
}.

(** Every call that leaves [session.c]. *)
Inductive Event :=
| EvPamOpen
| EvPamSetup
| EvPamClose
| EvCkOpen (parameters : list (string * GVariant))
| EvCkClose (cookie : string)
| EvCkLock (cookie : option string)
| EvCkUnlock (cookie : option string)
| EvSetup
| EvCleanup
| EvProcessStart
| EvProcessSignal (signum : Z)
| EvProcessStopped
| EvOpen (path : string)
| EvDup2 (fd target : Z)
| EvClose (fd : Z)
| EvSetsid
| EvChdir (dir : string)
| EvInitgroups (name : string) (gid : Z)
| EvSetgid (gid : Z)
| EvSetuid (uid : Z)
| EvExit (code : Z)
| EvExec (cmd : option string) (environ : gmap string string).

(** What the surroundings answer. *)
Record World := mkWorld {
  getuid : Z;
  environ : gmap string string;
  g_find_program_in_path : string -> option string;
  ck_open_session : list (string * GVariant) -> option string;
  process_start_result : bool;
  sys_open : string -> Z;
  sys_setsid : Z;
  sys_chdir : string -> Z;
  sys_initgroups : string -> Z -> Z;
  sys_setgid : Z -> Z;
  sys_setuid : Z -> Z;
  PKGLIBEXEC_DIR : string
}.

Definition g_getenv (w : World) (name : string) : option string :=
  environ w !! name.

Definition SIGTERM : Z := 15.
Definition EXIT_FAILURE : Z := 1.
Definition STDIN_FILENO : Z := 0.
Definition STDOUT_FILENO : Z := 1.
Definition STDERR_FILENO : Z := 2.

(** ** The monad of [session.c]: state, trace, and [_exit] *)

Record State := mkState {
  session : Session;
  trace : list Event
}.

(** A call returns, or the process leaves through [_exit], or the C code
    dereferences a handle that is [NULL] ([Fault]: outside the model). *)
Inductive Res (A : Type) :=
| Ret (a : A)
| Exit (code : Z)
| Fault.
Arguments Ret {A} a.
Arguments Exit {A} code.
Arguments Fault {A}.

Definition M (A : Type) : Type := State -> Res A * State.

Definition ret {A} (a : A) : M A := fun st => (Ret a, st).

Definition bind {A B} (m : M A) (k : A -> M B) : M B :=
  fun st =>
    match m st with
    | (Ret a, st') => k a st'
    | (Exit c, st') => (Exit c, st')
    | (Fault, st') => (Fault, st')
    end.

Declare Scope session_scope.
Delimit Scope session_scope with session.
Notation "x <- m ;; k" := (bind m (fun x => k))
  (at level 100, m at next level, right associativity) : session_scope.
Notation "m ;; k" := (bind m (fun _ => k))
  (at level 100, right associativity) : session_scope.
Local Open Scope session_scope.

Definition emit (e : Event) : M unit :=
  fun st => (Ret tt, mkState (session st) (trace st ++ [e])).

Definition get_session : M Session := fun st => (Ret (session st), st).

Definition modify_session (f : Session -> Session) : M unit :=
  fun st => (Ret tt, mkState (f (session st)) (trace st)).

Definition fault {A} : M A := fun st => (Fault, st).

Definition _exit {A} (code : Z) : M A :=
  fun st => (Exit code, mkState (session st) (trace st ++ [EvExit code])).

Definition when (b : bool) (m : M unit) : M unit := if b then m else ret tt.

(** ** The parent class and the collaborators *)

Definition with_parent (f : Process -> Process) (s : Session) : Session :=
  mkSession (f (parent_instance s)) (log_file s) (log_file_as_user s)
            (authentication s) (command s) (console_kit_parameters s)
            (console_kit_cookie s) (is_greeter s).

(** Modelled from the spec: [process_set_env] of the absent process.c.
    The environment is a mapping with unique keys, overwritten on a
    repeated set. *)
Definition process_set_env (name value : string) : M unit :=
  modify_session (with_parent (fun p =>
    mkProcess (<[name := value]> (env p)) (clear_environment p)
              (process_command p) (is_running p))).

(** Modelled from the spec: [process_get_env] of the absent process.c,
    the lookup in that mapping. *)
Definition process_get_env (name : string) : M (option string) :=
  s <- get_session ;; ret (env (parent_instance s) !! name).

(** Modelled from the spec: [process_set_clear_environment] of the absent
    process.c, the spec's [clear_inherited_environment(bool)]. *)
Definition process_set_clear_environment (b : bool) (p : Process) : Process :=
  mkProcess (env p) b (process_command p) (is_running p).

(** Modelled from the spec: [process_set_command] of the absent process.c. *)
Definition process_set_command (c : string) : M unit :=
  modify_session (with_parent (fun p =>
    mkProcess (env p) (clear_environment p) (Some c) (is_running p))).

(** Modelled from the spec: [process_get_is_running] of the absent
    process.c. *)
Definition process_get_is_running : M bool :=
  s <- get_session ;; ret (is_running (parent_instance s)).

(** Modelled from the spec: [process_start] of the absent process.c.  The
    launch succeeds or not as the world says; on success the process is
    running.  The child continues in [session_run] on its own copy of the
    session. *)
Definition process_start (w : World) : M bool :=
  emit EvProcessStart ;;
  if process_start_result w then
    modify_session (with_parent (fun p =>
      mkProcess (env p) (clear_environment p) (process_command p) true)) ;;
    ret true
  else ret false.

(** Modelled from the spec: [process_signal] of the absent process.c. *)
Definition process_signal (signum : Z) : M unit := emit (EvProcessSignal signum).

(** Modelled from the spec: the environment the executed command sees.
    With the inherited environment cleared it is the environment mapping
    alone; otherwise the mapping laid over the inherited variables. *)
Definition child_environ (w : World) (p : Process) : gmap string string :=
  if clear_environment p then env p else env p ∪ environ w.

(** Modelled from the spec: the [run] method of the parent class in the
    absent process.c, the generic step that executes the resolved command
    with the final environment. *)
Definition process_run (w : World) : M unit :=
  s <- get_session ;;
  emit (EvExec (process_command (parent_instance s))
               (child_environ w (parent_instance s))).

(** Modelled from the spec: the [stopped] method of the parent class in the
    absent process.c; the process is no longer running. *)
Definition process_stopped : M unit :=
  modify_session (with_parent (fun p =>
    mkProcess (env p) (clear_environment p) (process_command p) false)) ;;
  emit EvProcessStopped.

(** The handle stored in the session; [session.c] hands it to PAM only
    behind the check of [session_start], a [NULL] here is a [Fault]. *)
Definition the_authentication : M PAMSession :=
  s <- get_session ;;
  match authentication s with
  | Some a => ret a
  | None => fault
  end.

(** Modelled from the spec: [pam_session_open], [pam_session_setup] and
    [pam_session_close] of the absent pam-session.c, the spec's [open()],
    [setup()] and [close()]; [session.c] reads no result of them, so each
    is the record of its call. *)
Definition pam_session_open : M unit := emit EvPamOpen.
Definition pam_session_setup : M unit := emit EvPamSetup.
Definition pam_session_close : M unit := emit EvPamClose.

(** Modelled from the spec: the registrar of the absent console-kit.c, the
    spec's [open(parameters) -> cookie or failure], [close(cookie)],
    [lock(cookie)] and [unlock(cookie)]; the answer of [open] is the
    world's. *)
Definition ck_open (w : World) (parameters : list (string * GVariant))
  : M (option string) :=
  emit (EvCkOpen parameters) ;; ret (ck_open_session w parameters).
Definition ck_close_session (cookie : string) : M unit := emit (EvCkClose cookie).
Definition ck_lock_session (cookie : option string) : M unit := emit (EvCkLock cookie).
Definition ck_unlock_session (cookie : option string) : M unit :=
  emit (EvCkUnlock cookie).

(** The C library and GLib: each call is recorded, its result is the
    world's. *)
Definition g_open (w : World) (path : string) : M Z :=
  emit (EvOpen path) ;; ret (sys_open w path).
Definition dup2 (fd target : Z) : M unit := emit (EvDup2 fd target).
Definition close (fd : Z) : M unit := emit (EvClose fd).
Definition setsid (w : World) : M Z := emit EvSetsid ;; ret (sys_setsid w).
Definition chdir (w : World) (dir : string) : M Z :=
  emit (EvChdir dir) ;; ret (sys_chdir w dir).
Definition initgroups (w : World) (name : string) (gid : Z) : M Z :=
  emit (EvInitgroups name gid) ;; ret (sys_initgroups w name gid).
Definition setgid (w : World) (gid : Z) : M Z :=
  emit (EvSetgid gid) ;; ret (sys_setgid w gid).
Definition setuid (w : World) (uid : Z) : M Z :=
  emit (EvSetuid uid) ;; ret (sys_setuid w uid).

(** ** The class: the three virtual methods *)

(** [setup] and [cleanup] transform the session object; their dispatch is
    what the trace records.  [start] is [None] for a class that keeps
    [session_real_start]. *)
Record SessionClass := mkSessionClass {
  klass_start : option (M bool);
  klass_setup : Session -> bool * Session;
  klass_cleanup : Session -> Session
}.

Definition call_setup (klass : SessionClass) : M bool :=
  emit EvSetup ;;
  s <- get_session ;;
  let '(r, s') := klass_setup klass s in
  modify_session (fun _ => s') ;; ret r.

Definition call_cleanup (klass : SessionClass) : M unit :=
  emit EvCleanup ;; modify_session (klass_cleanup klass).

(** ** session.c, setters and getters *)

Definition session_set_log_file (filename : option string) (as_user : bool)
  (s : Session) : Session :=
  mkSession (parent_instance s) filename as_user (authentication s)
            (command s) (console_kit_parameters s) (console_kit_cookie s)
            (is_greeter s).

Definition session_get_log_file (s : Session) : option string := log_file s.

Definition session_set_authentication (a : PAMSession) (s : Session) : Session :=
  mkSession (parent_instance s) (log_file s) (log_file_as_user s) (Some a)
            (command s) (console_kit_parameters s) (console_kit_cookie s)
            (is_greeter s).

Definition session_get_authentication (s : Session) : option PAMSession :=
  authentication s.

Definition session_set_is_greeter (b : bool) (s : Session) : Session :=
  mkSession (parent_instance s) (log_file s) (log_file_as_user s)
            (authentication s) (command s) (console_kit_parameters s)
            (console_kit_cookie s) b.

Definition session_get_is_greeter (s : Session) : bool := is_greeter s.

Definition session_set_command (c : option string) (s : Session) : Session :=
  mkSession (parent_instance s) (log_file s) (log_file_as_user s)
            (authentication s) c (console_kit_parameters s)
            (console_kit_cookie s) (is_greeter s).

Definition session_get_command (s : Session) : option string := command s.

Definition session_set_env (name value : string) : M unit :=
  process_set_env name value.

Definition session_get_env (name : string) : M (option string) :=
  process_get_env name.

Definition session_set_console_kit_parameter (name : string) (value : GVariant)
  (s : Session) : Session :=
  mkSession (parent_instance s) (log_file s) (log_file_as_user s)
            (authentication s) (command s)
            (<[name := value]> (console_kit_parameters s))
            (console_kit_cookie s) (is_greeter s).

Definition session_get_console_kit_cookie (s : Session) : option string :=
  console_kit_cookie s.

Definition set_console_kit_cookie (c : option string) : M unit :=
  modify_session (fun s =>
    mkSession (parent_instance s) (log_file s) (log_file_as_user s)
              (authentication s) (command s) (console_kit_parameters s)
              c (is_greeter s)).

(** ** session.c, the lifecycle *)

Definition get_absolute_command (w : World) (command : string) : option string :=
  let tokens := GLib.g_strsplit_2 command " " in
  match tokens !! 0%nat ≫= g_find_program_in_path w with
  | Some absolute_binary =>
      match tokens !! 1%nat with
      | Some args => Some (GLib.g_strjoin2 " " absolute_binary args)
      | None => Some absolute_binary
      end
  | None => None
  end.

(** The loop of [set_env_from_authentication] over the entries. *)
Fixpoint set_env_from_entries (pam_env : list string) : M unit :=
  match pam_env with
  | [] => ret tt
  | entry :: rest =>
      match GLib.g_strsplit_2 entry "=" with
      | name :: value :: _ => session_set_env name value
      | _ => ret tt
      end ;;
      set_env_from_entries rest
  end.

Definition set_env_from_authentication (a : PAMSession) : M unit :=
  match pam_session_get_envlist a with
  | Some pam_env => set_env_from_entries pam_env
  | None => ret tt
  end.

Definition set_locale : M unit :=
  a <- the_authentication ;;
  match user_get_locale (pam_session_get_user a) with
  | Some locale => session_set_env "LANG" locale
  | None => ret tt
  end.

Definition insert_utility_path (w : World) : M unit :=
  orig_path <- session_get_env "PATH" ;;
  match orig_path with
  | Some orig => session_set_env "PATH" (PKGLIBEXEC_DIR w +:+ ":" +:+ orig)
  | None => ret tt
  end.

Definition session_setup (s : Session) : bool * Session := (true, s).

Definition session_cleanup (s : Session) : Session := s.

Definition session_real_start (klass : SessionClass) (w : World) : M bool :=
  s <- get_session ;;
  match command s with
  | None => fault
  | Some cmd =>
      match get_absolute_command w cmd with
      | None => ret false
      | Some absolute_command =>
          process_set_command absolute_command ;;
          pam_session_open ;;
          (if getuid w =? 0 then
             a <- the_authentication ;;
             let user := pam_session_get_user a in
             let parameters :=
               ("unix-user",
                g_variant_new_int32 (gint32 (user_get_uid user)))
               :: (if is_greeter s
                   then [("session-type", g_variant_new_string "LoginWindow")]
                   else [])
               ++ map_to_list (console_kit_parameters s) in
             cookie <- ck_open w parameters ;;
             set_console_kit_cookie cookie
           else
             set_console_kit_cookie (g_getenv w "XDG_SESSION_COOKIE")) ;;
          s1 <- get_session ;;
          match console_kit_cookie s1 with
          | Some cookie => session_set_env "XDG_SESSION_COOKIE" cookie
          | None => ret tt
          end ;;
          ok <- call_setup klass ;;
          if negb ok then ret false
          else
            result <- process_start w ;;
            (if negb result then
               pam_session_close ;;
               s2 <- get_session ;;
               match getuid w =? 0, console_kit_cookie s2 with
               | true, Some cookie => ck_close_session cookie
               | _, _ => ret tt
               end
             else ret tt) ;;
            ret result
      end
  end.

(** [SESSION_GET_CLASS (session)->start]. *)
Definition dispatch_start (klass : SessionClass) (w : World) : M bool :=
  match klass_start klass with
  | Some start => start
  | None => session_real_start klass w
  end.

Definition session_start (klass : SessionClass) (w : World) : M bool :=
  s <- get_session ;;
  match authentication s with
  | None => ret false
  | Some a =>
      match command s with
      | None => ret false
      | Some _ =>
          let user := pam_session_get_user a in
          session_set_env "PATH" "/usr/local/bin:/usr/bin:/bin" ;;
          session_set_env "USER" (user_get_name user) ;;
          session_set_env "LOGNAME" (user_get_name user) ;;
          session_set_env "HOME" (user_get_home_directory user) ;;
          session_set_env "SHELL" (user_get_shell user) ;;
          dispatch_start klass w
      end
  end.

Definition session_lock (w : World) : M unit :=
  s <- get_session ;;
  when (getuid w =? 0) (ck_lock_session (console_kit_cookie s)).

Definition session_unlock (w : World) : M unit :=
  s <- get_session ;;
  when (getuid w =? 0) (ck_unlock_session (console_kit_cookie s)).

Definition session_stop (klass : SessionClass) : M bool :=
  running <- process_get_is_running ;;
  if negb running then ret true
  else
    call_cleanup klass ;;
    process_signal SIGTERM ;;
    ret false.

Definition setup_log_file (w : World) : M unit :=
  s <- get_session ;;
  match log_file s with
  | None => ret tt
  | Some path =>
      fd <- g_open w path ;;
      if fd <? 0 then ret tt
      else
        dup2 fd STDOUT_FILENO ;;
        dup2 fd STDERR_FILENO ;;
        close fd
  end.

(** The identity change of [session_run], taken only when running as root. *)
Definition change_to_user (w : World) (user : User) : M unit :=
  r1 <- initgroups w (user_get_name user) (user_get_gid user) ;;
  if r1 <? 0 then _exit EXIT_FAILURE
  else
    r2 <- setgid w (user_get_gid user) ;;
    if negb (r2 =? 0) then _exit EXIT_FAILURE
    else
      r3 <- setuid w (user_get_uid user) ;;
      if negb (r3 =? 0) then _exit EXIT_FAILURE
      else ret tt.

Definition session_run (w : World) : M unit :=
  fd <- g_open w "/dev/null" ;;
  dup2 fd STDIN_FILENO ;;
  close fd ;;
  s <- get_session ;;
  when (negb (log_file_as_user s)) (setup_log_file w) ;;
  setsid w ;;
  a <- the_authentication ;;
  let user := pam_session_get_user a in
  r <- chdir w (user_get_home_directory user) ;;
  if negb (r =? 0) then _exit EXIT_FAILURE
  else
    when (getuid w =? 0) (change_to_user w user) ;;
    when (log_file_as_user s) (setup_log_file w) ;;
    pam_session_setup ;;
    set_env_from_authentication a ;;
    set_locale ;;
    insert_utility_path w ;;
    process_run w.

Definition session_stopped (w : World) : M unit :=
  pam_session_close ;;
  s <- get_session ;;
  match getuid w =? 0, console_kit_cookie s with
  | true, Some cookie => ck_close_session cookie
  | _, _ => ret tt
  end ;;
  process_stopped.

(** [session_init] on the instance the parent class has initialised: the
    private part is zeroed, the parameter table empty, and the inherited
    environment is cleared. *)
Definition session_init (p : Process) : Session :=
  mkSession (process_set_clear_environment true p) None false None None ∅
            None false.

(** [session_class_init]: the methods of the base class. *)
Definition session_class : SessionClass :=
  mkSessionClass None session_setup session_cleanup.

(** ** Reading traces *)

Definition is_pam_open (e : Event) : bool :=
  match e with EvPamOpen => true | _ => false end.
Definition is_pam_close (e : Event) : bool :=
  match e with EvPamClose => true | _ => false end.
Definition is_ck_open (e : Event) : bool :=
  match e with EvCkOpen _ => true | _ => false end.
Definition is_ck_close (e : Event) : bool :=
  match e with EvCkClose _ => true | _ => false end.
Definition is_cleanup (e : Event) : bool :=
  match e with EvCleanup => true | _ => false end.
Definition is_signal (e : Event) : bool :=
  match e with EvProcessSignal _ => true | _ => false end.
Definition is_process_start (e : Event) : bool :=
  match e with EvProcessStart => true | _ => false end.
Definition is_exec (e : Event) : bool :=
  match e with EvExec _ _ => true | _ => false end.
Definition is_identity_change (e : Event) : bool :=
  match e with
  | EvInitgroups _ _ | EvSetgid _ | EvSetuid _ => true
  | _ => false
  end.

(** How often a kind of call occurs in a trace. *)
Definition calls (kind : Event -> bool) (evs : list Event) : nat :=
  length (List.filter kind evs).

(** The environment mapping of a state. *)
Definition environment (st : State) : gmap string string :=
  env (parent_instance (session st)).

(** The ConsoleKit parameters [session_real_start] builds when root. *)
Definition ck_parameters (s : Session) (a : PAMSession)
  : list (string * GVariant) :=
  ("unix-user",
   g_variant_new_int32 (gint32 (user_get_uid (pam_session_get_user a))))
  :: (if is_greeter s
      then [("session-type", g_variant_new_string "LoginWindow")]
      else [])
  ++ map_to_list (console_kit_parameters s).

(** The cookie [session_real_start] stores: the registrar's answer when
    root, the inherited [XDG_SESSION_COOKIE] otherwise. *)
Definition stored_cookie (w : World) (s : Session) (a : PAMSession)
  : option string :=
  if getuid w =? 0 then ck_open_session w (ck_parameters s a)
  else g_getenv w "XDG_SESSION_COOKIE".

(** The program token of a command: the text before its first space. *)
Definition program_token (cmd : string) : option string :=
  GLib.g_strsplit_2 cmd " " !! 0%nat.

(** The session as [session_real_start] leaves it once the command is
    resolved to [abs] and the cookie stored: command set on the process,
    cookie in the session and, when there is one, in the environment. *)
Definition registered (w : World) (abs : string) (a : PAMSession) (s : Session)
  : Session :=
  let p := parent_instance s in
  let c := stored_cookie w s a in
  mkSession
    (mkProcess
       (match c with
        | Some v => <["XDG_SESSION_COOKIE" := v]> (env p)
        | None => env p
        end)
       (clear_environment p) (Some abs) (is_running p))
    (log_file s) (log_file_as_user s) (authentication s) (command s)
    (console_kit_parameters s) c (is_greeter s).

(** The calls [session_real_start] makes up to and including the dispatch
    of the setup hook. *)
Definition opening_events (w : World) (s : Session) (a : PAMSession)
  : list Event :=
  EvPamOpen
  :: (if getuid w =? 0 then [EvCkOpen (ck_parameters s a)] else [])
  ++ [EvSetup].

(** The calls of the rollback after a failed launch. *)
Definition rollback_events (w : World) (cookie : option string) : list Event :=
  EvPamClose
  :: match getuid w =? 0, cookie with
     | true, Some c => [EvCkClose c]
     | _, _ => []
     end.

Definition set_running (b : bool) (s : Session) : Session :=
  with_parent (fun p =>
    mkProcess (env p) (clear_environment p) (process_command p) b) s.

(** The five POSIX variables [session_start] seeds. *)
Definition baseline (u : User) : list (string * string) :=
  [("PATH", "/usr/local/bin:/usr/bin:/bin");
   ("USER", user_get_name u);
   ("LOGNAME", user_get_name u);
   ("HOME", user_get_home_directory u);
   ("SHELL", user_get_shell u)].

(** Laying a list of bindings over a mapping, in list order: a later
    binding of a key overwrites an earlier one. *)
Definition overlay (m : gmap string string) (layer : list (string * string))
  : gmap string string :=
  foldl (fun acc kv => <[kv.1 := kv.2]> acc) m layer.

Definition seeded (u : User) (s : Session) : Session :=
  with_parent (fun p =>
    mkProcess (overlay (env p) (baseline u)) (clear_environment p)
              (process_command p) (is_running p)) s.

(** ** Sample sessions and worlds *)

Definition alice : User :=
  mkUser "alice" 1000 1000 "/home/alice" "/bin/sh" (Some "en_GB.UTF-8").

Definition alice_pam : PAMSession :=
  mkPAMSession alice
    (Some ["HOME=/srv/alice"; "BROKEN"; "PATH=/opt/bin"; "LANG=C"; "X=1=2"]).

Definition fresh_process : Process := mkProcess ∅ false None false.

Definition alice_session : Session :=
  session_set_command (Some "xterm -e top")
    (session_set_authentication alice_pam (session_init fresh_process)).

Definition find_xterm (program : string) : option string :=
  if String.eqb program "xterm" then Some "/usr/bin/xterm" else None.

(** A world where every call succeeds, seen by root. *)
Definition root_world : World :=
  mkWorld 0 {["TERM" := "linux"]} find_xterm (fun _ => Some "ck-1") true
          (fun _ => 3) 0 (fun _ => 0) (fun _ _ => 0) (fun _ => 0)
          (fun _ => 0) "/usr/lib/lightdm".

(** The same world with a launch that fails. *)
Definition root_world_no_launch : World :=
  mkWorld 0 {["TERM" := "linux"]} find_xterm (fun _ => Some "ck-1") false
          (fun _ => 3) 0 (fun _ => 0) (fun _ _ => 0) (fun _ => 0)
          (fun _ => 0) "/usr/lib/lightdm".

(** The same world seen by an ordinary user inside a registered session. *)
Definition user_world : World :=
  mkWorld 1000 {["XDG_SESSION_COOKIE" := "ck-0"]} find_xterm (fun _ => None)
          true (fun _ => 3) 0 (fun _ => 0) (fun _ _ => 0) (fun _ => 0)
          (fun _ => 0) "/usr/lib/lightdm".

(** A world for root where nothing is found in the path. *)
Definition root_world_empty_path : World :=
  mkWorld 0 ∅ (fun _ => None) (fun _ => Some "ck-1") true
          (fun _ => 3) 0 (fun _ => 0) (fun _ _ => 0) (fun _ => 0)
          (fun _ => 0) "/usr/lib/lightdm".

(** A world for root where [setgid] is refused. *)
Definition root_world_setgid_fails : World :=
  mkWorld 0 ∅ find_xterm (fun _ => Some "ck-1") true
          (fun _ => 3) 0 (fun _ => 0) (fun _ _ => 0) (fun _ => -1)
          (fun _ => 0) "/usr/lib/lightdm".

(** A subclass whose setup hook reports failure. *)
Definition failing_setup_class : SessionClass :=
  mkSessionClass None (fun s => (false, s)) session_cleanup.

(** A running session that holds a cookie. *)
Definition running_session : Session :=
  set_running true (registered root_world "/usr/bin/xterm -e top" alice_pam
                      alice_session).

(** ** The claims on the cookie, as the specification words them *)


(** The specification's reading of the rollback after a failed launch:
    start fails, both closes are called once, and no cookie stays stored. *)
Definition rollback_clears_cookie (w : World) (st : State) : Prop :=
  let r := session_start session_class w st in
  r.1 = Ret false
  /\ (exists evs, trace r.2 = trace st ++ evs
                  /\ calls is_pam_close evs = 1%nat
                  /\ calls is_ck_close evs = 1%nat)
  /\ console_kit_cookie (session r.2) = None.

(** The specification's reading of a failing setup hook: start fails and,
    by the time it returns, the authentication is closed again and so is
    the registered session. *)
Definition setup_failure_rolls_back (klass : SessionClass) (w : World)
  (st : State) : Prop :=
  let r := session_start klass w st in
  r.1 = Ret false
  /\ exists evs, trace r.2 = trace st ++ evs
                 /\ calls is_pam_close evs = calls is_pam_open evs
                 /\ calls is_ck_close evs = calls is_ck_open evs.

(** ** The child: what [session_run] does, read off its code *)

(** The calls of [setup_log_file]. *)
Definition log_file_events (w : World) (s : Session) : list Event :=
  match log_file s with
  | None => []
  | Some path =>
      EvOpen path
      :: (if sys_open w path <? 0 then []
          else [EvDup2 (sys_open w path) STDOUT_FILENO;
                EvDup2 (sys_open w path) STDERR_FILENO;
                EvClose (sys_open w path)])
  end.

(** The calls of [session_run] up to and including [chdir]. *)
Definition run_prelude (w : World) (s : Session) (u : User) : list Event :=
  [EvOpen "/dev/null";
   EvDup2 (sys_open w "/dev/null") STDIN_FILENO;
   EvClose (sys_open w "/dev/null")]
  ++ (if log_file_as_user s then [] else log_file_events w s)
  ++ [EvSetsid; EvChdir (user_get_home_directory u)].

Arguments run_prelude : simpl never.
Arguments log_file_events : simpl never.

(** The three calls of the identity change, in the order of the code. *)
Definition identity_change (u : User) : list Event :=
  [EvInitgroups (user_get_name u) (user_get_gid u);
   EvSetgid (user_get_gid u);
   EvSetuid (user_get_uid u)].

(** How many of the three calls are made (the failing one included), and
    whether all of them succeeded. *)
Definition identity_progress (w : World) (u : User) : nat * bool :=
  if sys_initgroups w (user_get_name u) (user_get_gid u) <? 0 then (1%nat, false)
  else if negb (sys_setgid w (user_get_gid u) =? 0) then (2%nat, false)
  else if negb (sys_setuid w (user_get_uid u) =? 0) then (3%nat, false)
  else (3%nat, true).

(** One entry of the PAM environment list: [name=value], split at the
    first [=]; an entry without [=] is skipped. *)
Definition parse_override (entry : string) : option (string * string) :=
  match GLib.g_strsplit_2 entry "=" with
  | name :: value :: _ => Some (name, value)
  | _ => None
  end.

Definition authentication_overrides (a : PAMSession) : list (string * string) :=
  match pam_session_get_envlist a with
  | Some pam_env => omap parse_override pam_env
  | None => []
  end.

Definition locale_override (u : User) : list (string * string) :=
  match user_get_locale u with
  | Some locale => [("LANG", locale)]
  | None => []
  end.

Definition with_utility_path (w : World) (m : gmap string string)
  : gmap string string :=
  match m !! "PATH" with
  | Some orig => <["PATH" := PKGLIBEXEC_DIR w +:+ ":" +:+ orig]> m
  | None => m
  end.

(** The environment the child ends with, from the one it starts with. *)
Definition final_environment (w : World) (a : PAMSession)
  (m : gmap string string) : gmap string string :=
  with_utility_path w
    (overlay (overlay m (authentication_overrides a))
             (locale_override (pam_session_get_user a))).

Definition with_env (m : gmap string string) (s : Session) : Session :=
  with_parent (fun p =>
    mkProcess m (clear_environment p) (process_command p) (is_running p)) s.

Definition child_session (w : World) (a : PAMSession) (s : Session) : Session :=
  with_env (final_environment w a (env (parent_instance s))) s.

(** The failure of one of the four calls the child cannot survive. *)
Definition drop_fails (w : World) (u : User) : bool :=
  negb (sys_chdir w (user_get_home_directory u) =? 0)
  || (sys_initgroups w (user_get_name u) (user_get_gid u) <? 0)
  || negb (sys_setgid w (user_get_gid u) =? 0)
  || negb (sys_setuid w (user_get_uid u) =? 0).

(** The identity-change calls the child of root makes, by what fails:
    none when [chdir] failed, and otherwise the three in order, up to and
    including the first that fails. *)
Definition identity_calls_made (w : World) (u : User) : list Event :=
  if negb (sys_chdir w (user_get_home_directory u) =? 0) then []
  else if sys_initgroups w (user_get_name u) (user_get_gid u) <? 0
  then [EvInitgroups (user_get_name u) (user_get_gid u)]
  else if negb (sys_setgid w (user_get_gid u) =? 0)
  then [EvInitgroups (user_get_name u) (user_get_gid u);
        EvSetgid (user_get_gid u)]
  else [EvInitgroups (user_get_name u) (user_get_gid u);
        EvSetgid (user_get_gid u);
        EvSetuid (user_get_uid u)].

(** The first of the four calls that fails for the child of root, if one
    does. *)
Definition failing_call (w : World) (u : User) : option Event :=
  if negb (sys_chdir w (user_get_home_directory u) =? 0)
  then Some (EvChdir (user_get_home_directory u))
  else if sys_initgroups w (user_get_name u) (user_get_gid u) <? 0
  then Some (EvInitgroups (user_get_name u) (user_get_gid u))
  else if negb (sys_setgid w (user_get_gid u) =? 0)
  then Some (EvSetgid (user_get_gid u))
  else if negb (sys_setuid w (user_get_uid u) =? 0)
  then Some (EvSetuid (user_get_uid u))
  else None.

(** The calls whose failure ends the child: [chdir] and the three of the
    identity change. *)
Definition is_drop_call (e : Event) : bool :=
  match e with
  | EvChdir _ => true
  | _ => is_identity_change e
  end.

(** Neither an identity change nor the execution of the command. *)
Definition is_bystander (e : Event) : bool :=
  negb (is_identity_change e) && negb (is_exec e).

(** ** The layers of the child's environment, as the specification lists them *)

(** The value a layer gives a name: that of its last binding of the name. *)
Fixpoint last_binding (name : string) (layer : list (string * string))
  : option string :=
  match layer with
  | [] => None
  | (k, v) :: rest =>
      match last_binding name rest with
      | Some v' => Some v'
      | None => if decide (k = name) then Some v else None
      end
  end.

(** The value of a name under a stack of layers, the topmost first, over
    the initial mapping: the topmost layer that binds the name decides. *)
Definition lookup_layers (name : string) (layers : list (list (string * string)))
  (m : gmap string string) : option string :=
  foldr (fun layer below =>
           match last_binding name layer with
           | Some v => Some v
           | None => below
           end)
        (m !! name) layers.

(** The binding [session_real_start] adds for a stored cookie. *)
Definition cookie_layer (cookie : option string) : list (string * string) :=
  match cookie with
  | Some c => [("XDG_SESSION_COOKIE", c)]
  | None => []
  end.

(** The path prefix: the utility directory goes in front of whatever the
    layers below give [PATH]. *)
Definition prefix_utility_path (w : World) (name : string)
  (below : option string) : option string :=
  if decide (name = "PATH")
  then (fun orig => PKGLIBEXEC_DIR w +:+ ":" +:+ orig) <$> below
  else below.

(** ** The life of a session: the calls of session.h *)

Inductive Call :=
| CallSetLogFile (filename : option string) (as_user : bool)
| CallSetAuthentication (a : PAMSession)
| CallSetIsGreeter (b : bool)
| CallSetCommand (c : option string)
| CallSetEnv (name value : string)
| CallSetConsoleKitParameter (name : string) (value : GVariant)
| CallStart
| CallLock
| CallUnlock
| CallStop
| CallStopped
| CallRun.

Definition call (w : World) (c : Call) : M unit :=
  match c with
  | CallSetLogFile filename as_user =>
      modify_session (session_set_log_file filename as_user)
  | CallSetAuthentication a => modify_session (session_set_authentication a)
  | CallSetIsGreeter b => modify_session (session_set_is_greeter b)
  | CallSetCommand c => modify_session (session_set_command c)
  | CallSetEnv name value => session_set_env name value
  | CallSetConsoleKitParameter name value =>
      modify_session (session_set_console_kit_parameter name value)
  | CallStart => session_start session_class w ;; ret tt
  | CallLock => session_lock w
  | CallUnlock => session_unlock w
  | CallStop => session_stop session_class ;; ret tt
  | CallStopped => session_stopped w
  | CallRun => session_run w
  end.

(** The state after a history of calls on a session. *)
Definition after_calls (w : World) (history : list Call) (st : State) : State :=
  foldl (fun acc c => (call w c acc).2) st history.

(** The clear-environment flag of the process of a state. *)
Definition clears (st : State) : bool :=
  clear_environment (parent_instance (session st)).

(** A computation that leaves the clear-environment flag as it finds it. *)
Definition keeps_clear {A} (m : M A) : Prop :=
  forall st, clears (m st).2 = clears st.

(** ** Further readings of states, traces and worlds *)

(** Whether a start of the base class succeeds: the preconditions hold, the
    program is found and the launch works. *)
Definition start_succeeds (w : World) (s : Session) : bool :=
  match authentication s, command s with
  | Some _, Some cmd =>
      match get_absolute_command w cmd with
      | Some _ => process_start_result w
      | None => false
      end
  | _, _ => false
  end.

(** Whether the child gets past [chdir] and, when root, the identity
    change. *)
Definition run_survives (w : World) (u : User) : bool :=
  (sys_chdir w (user_get_home_directory u) =? 0)
  && (negb (getuid w =? 0) || (identity_progress w u).2).

Definition is_console_kit (e : Event) : bool :=
  match e with
  | EvCkOpen _ | EvCkClose _ | EvCkLock _ | EvCkUnlock _ => true
  | _ => false
  end.


(** The configuration of a session: what the setters of session.h write,
    the environment apart. *)
Definition same_configuration (s s' : Session) : Prop :=
  log_file s' = log_file s
  /\ log_file_as_user s' = log_file_as_user s
  /\ authentication s' = authentication s
  /\ command s' = command s
  /\ console_kit_parameters s' = console_kit_parameters s
  /\ is_greeter s' = is_greeter s.

(** The calls that drive the life of a session, the setters apart. *)
Definition is_lifecycle (c : Call) : bool :=
  match c with
  | CallStart | CallLock | CallUnlock | CallStop | CallStopped | CallRun => true
  | _ => false
  end.

Definition is_start (c : Call) : bool :=
  match c with CallStart => true | _ => false end.

(** A computation whose final state is always related to its initial one. *)
Definition respects (R : relation State) {A} (m : M A) : Prop :=
  forall st, R st (m st).2.

(** No ConsoleKit call is added to the trace. *)
Definition same_console_kit_calls : relation State :=
  fun st st' =>
    List.filter is_console_kit (trace st')
    = List.filter is_console_kit (trace st).

(** A relation on sessions, read on states. *)
Definition on_session (Rs : relation Session) : relation State :=
  fun st st' => Rs (session st) (session st').

(** No variable of the environment is lost. *)
Definition variables_kept : relation Session :=
  fun s s' =>
    forall name, is_Some (env (parent_instance s) !! name) ->
                 is_Some (env (parent_instance s') !! name).

(** The stored cookie stays. *)
Definition cookie_kept : relation Session :=
  fun s s' => console_kit_cookie s' = console_kit_cookie s.

(** Alice's session with a log file she is to own. *)
Definition alice_logged_session : Session :=
  session_set_log_file (Some "/home/alice/.xsession-errors") true alice_session.

(** A world for root where no file can be opened. *)
Definition root_world_no_open : World :=
  mkWorld 0 ∅ find_xterm (fun _ => Some "ck-1") true
          (fun _ => -1) (-1) (fun _ => 0) (fun _ _ => 0) (fun _ => 0)
          (fun _ => 0) "/usr/lib/lightdm".

(** A world where a command that is an absolute path resolves to itself. *)
Definition absolute_world : World :=
  mkWorld 0 ∅ (fun program => Some program) (fun _ => None) true
          (fun _ => 3) 0 (fun _ => 0) (fun _ _ => 0) (fun _ => 0)
          (fun _ => 0) "/usr/lib/lightdm".

(** The opening of a file other than /dev/null: of the log file. *)
Definition is_log_open (e : Event) : bool :=
  match e with
  | EvOpen path => negb (String.eqb path "/dev/null")
  | _ => false
  end.

Definition is_log_open_or_identity_change (e : Event) : bool :=
  is_log_open e || is_identity_change e.


(** * Theorems *)

(** ** Stop, lock and unlock *)

(** C7: [session_stop] on a process that is not running returns [TRUE] at
    once and leaves state and trace untouched (no cleanup hook, no signal);
    on a running process it dispatches the cleanup hook exactly once, sends
    exactly one signal, which is [SIGTERM], and returns [FALSE]. *)
Theorem session_stop_protocol (klass : SessionClass) (st : State) :
  if is_running (parent_instance (session st))
  then
    exists evs,
      session_stop klass st
      = (Ret false,
         mkState (klass_cleanup klass (session st)) (trace st ++ evs))
      /\ evs = [EvCleanup; EvProcessSignal SIGTERM]
      /\ calls is_cleanup evs = 1%nat
      /\ calls is_signal evs = 1%nat
  else
    session_stop klass st = (Ret true, st).
Proof.
  unfold session_stop, process_get_is_running, bind, get_session, ret.
  destruct (is_running (parent_instance (session st))) eqn:Hrun; simpl.
  - exists [EvCleanup; EvProcessSignal SIGTERM].
    repeat split.
    unfold call_cleanup, process_signal, bind, emit, modify_session. simpl.
    by rewrite <- app_assoc.
  - reflexivity.
Qed.

(** C9: without root privilege [session_lock] and [session_unlock] change
    nothing and call nobody; with root privilege each makes exactly one
    call, to the registrar, handing over the stored cookie. *)
Theorem session_lock_unlock_forwarding (w : World) (st : State) :
  (getuid w <> 0 ->
     session_lock w st = (Ret tt, st) /\ session_unlock w st = (Ret tt, st))
  /\ (getuid w = 0 ->
     session_lock w st
     = (Ret tt, mkState (session st)
                  (trace st ++ [EvCkLock (console_kit_cookie (session st))]))
     /\ session_unlock w st
     = (Ret tt, mkState (session st)
                  (trace st ++ [EvCkUnlock (console_kit_cookie (session st))]))).
Proof.
  unfold session_lock, session_unlock, bind, get_session, ret.
  split; intros Huid.
  - apply Z.eqb_neq in Huid. rewrite Huid. by split.
  - rewrite Huid. by split.
Qed.

Lemma session_lock_unlock_forwarding_witness :
  getuid user_world <> 0
  /\ session_lock user_world (mkState running_session [])
     = (Ret tt, mkState running_session [])
  /\ getuid root_world = 0
  /\ session_unlock root_world (mkState running_session [])
     = (Ret tt, mkState running_session [EvCkUnlock (Some "ck-1")]).
Proof.
  assert (Huser : getuid user_world <> 0) by (simpl; lia).
  split; [exact Huser |].
  split.
  - exact (proj1 (proj1 (session_lock_unlock_forwarding user_world
                           (mkState running_session [])) Huser)).
  - split; [reflexivity |].
    exact (proj2 (proj2 (session_lock_unlock_forwarding root_world
                           (mkState running_session [])) eq_refl)).
Defined.

(** ** Start: the preconditions and the command resolution *)

(** C8: [session_start] on a session whose authentication or whose command
    is unset returns [FALSE] and leaves the state and the trace as they
    were: no PAM call, no registration, no launch. *)
Theorem session_start_unset_precondition
  (klass : SessionClass) (w : World) (st : State) :
  authentication (session st) = None \/ command (session st) = None ->
  session_start klass w st = (Ret false, st).
Proof.
  unfold session_start, bind, get_session, ret.
  intros [H | H]; rewrite H; [done |].
  by destruct (authentication (session st)).
Qed.

Lemma session_start_unset_precondition_witness :
  authentication (session_init fresh_process) = None
  /\ session_start session_class root_world
       (mkState (session_init fresh_process) [])
     = (Ret false, mkState (session_init fresh_process) []).
Proof.
  split; [reflexivity |].
  apply (session_start_unset_precondition session_class root_world
           (mkState (session_init fresh_process) [])).
  left. reflexivity.
Defined.

Lemma session_start_seeds (klass : SessionClass) (w : World) (st : State)
  (a : PAMSession) (cmd : string) :
  authentication (session st) = Some a ->
  command (session st) = Some cmd ->
  session_start klass w st
  = dispatch_start klass w
      (mkState (seeded (pam_session_get_user a) (session st)) (trace st)).
Proof.
  intros Ha Hc.
  unfold session_start, bind, get_session, ret. rewrite Ha, Hc.
  reflexivity.
Qed.

(** What [session_real_start] of the base class does once the command
    resolves: the calls it makes, the state it leaves and its result, by
    the outcome of the launch. *)
Lemma session_real_start_resolved (w : World) (st : State) (a : PAMSession)
  (cmd abs : string) :
  authentication (session st) = Some a ->
  command (session st) = Some cmd ->
  get_absolute_command w cmd = Some abs ->
  let s1 := registered w abs a (session st) in
  let opening := opening_events w (session st) a in
  session_real_start session_class w st
  = if process_start_result w
    then (Ret true,
          mkState (set_running true s1)
                  (trace st ++ opening ++ [EvProcessStart]))
    else (Ret false,
          mkState s1
                  (trace st ++ opening ++ [EvProcessStart]
                   ++ rollback_events w (console_kit_cookie s1))).
Proof.
  intros Ha Hc Habs. simpl.
  unfold session_real_start, bind at 1, get_session. simpl.
  rewrite Hc, Habs.
  unfold registered, opening_events, rollback_events, stored_cookie,
    ck_parameters.
  destruct st as [s tr]; simpl in *.
  destruct (getuid w =? 0) eqn:Huid;
    destruct (process_start_result w) eqn:Hps;
    unfold bind, process_set_command, pam_session_open, the_authentication,
      ck_open, set_console_kit_cookie, call_setup, process_start,
      pam_session_close, ck_close_session, session_set_env, process_set_env,
      emit, modify_session, get_session, ret, when, with_parent, set_running;
    simpl; rewrite ?Ha; simpl.
  all: repeat match goal with
       | |- context [ck_open_session ?w ?p] =>
           destruct (ck_open_session w p) eqn:?; simpl
       | |- context [g_getenv ?w ?n] =>
           destruct (g_getenv w n) eqn:?; simpl
       end.
  all: rewrite ?Hps, ?Huid; simpl; rewrite <- ?app_assoc; simpl; reflexivity.
Qed.

Lemma stored_cookie_seeded (w : World) (u : User) (s : Session) (a : PAMSession) :
  stored_cookie w (seeded u s) a = stored_cookie w s a.
Proof. reflexivity. Qed.

(** C6: when the program token of the command is not found in the path,
    [session_start] returns [FALSE] and the trace is as before: PAM is not
    opened, ConsoleKit is not asked, nothing is launched; no cookie is
    stored and the process keeps its command and state. *)
Theorem session_start_command_not_found
  (klass : SessionClass) (w : World) (st : State) (a : PAMSession)
  (cmd : string) :
  klass_start klass = None ->
  authentication (session st) = Some a ->
  command (session st) = Some cmd ->
  program_token cmd ≫= g_find_program_in_path w = None ->
  let r := session_start klass w st in
  r.1 = Ret false
  /\ trace r.2 = trace st
  /\ calls is_pam_open (trace r.2) = calls is_pam_open (trace st)
  /\ calls is_ck_open (trace r.2) = calls is_ck_open (trace st)
  /\ calls is_process_start (trace r.2) = calls is_process_start (trace st)
  /\ session r.2 = seeded (pam_session_get_user a) (session st).
Proof.
  intros Hk Ha Hc Hfind. simpl.
  rewrite (session_start_seeds klass w st a cmd Ha Hc).
  unfold dispatch_start. rewrite Hk.
  unfold session_real_start, bind, get_session. simpl.
  rewrite Hc. unfold get_absolute_command.
  unfold program_token in Hfind. rewrite Hfind. simpl.
  repeat split.
Qed.

Lemma session_start_command_not_found_witness :
  program_token "xterm -e top" ≫= g_find_program_in_path root_world_empty_path
  = None
  /\ let r := session_start session_class root_world_empty_path
                (mkState alice_session []) in
     r.1 = Ret false /\ trace r.2 = [].
Proof.
  split; [reflexivity |].
  pose proof (session_start_command_not_found session_class
                root_world_empty_path (mkState alice_session []) alice_pam
                "xterm -e top" eq_refl eq_refl eq_refl eq_refl) as H.
  simpl in H. destruct H as (H1 & H2 & _). split; assumption.
Defined.

(** ** Start: setup failure, launch failure, teardown *)

Lemma calls_app (kind : Event -> bool) (l1 l2 : list Event) :
  calls kind (l1 ++ l2) = (calls kind l1 + calls kind l2)%nat.
Proof. unfold calls. by rewrite List.filter_app, length_app. Qed.

(** What a start of the base class does when the launch fails. *)
Lemma session_start_launch_failure (w : World) (st : State) (a : PAMSession)
  (cmd abs : string) :
  authentication (session st) = Some a ->
  command (session st) = Some cmd ->
  get_absolute_command w cmd = Some abs ->
  process_start_result w = false ->
  let s1 := registered w abs a (seeded (pam_session_get_user a) (session st)) in
  session_start session_class w st
  = (Ret false,
     mkState s1
       (trace st ++ opening_events w (session st) a ++ [EvProcessStart]
        ++ rollback_events w (stored_cookie w (session st) a))).
Proof.
  intros Ha Hc Habs Hps.
  rewrite (session_start_seeds session_class w st a cmd Ha Hc).
  unfold dispatch_start. simpl klass_start. cbv iota.
  rewrite (session_real_start_resolved w _ a cmd abs); [| done..].
  simpl. by rewrite Hps.
Qed.

(** C5, as the code has it: when the launch fails after PAM was opened and,
    as root, ConsoleKit handed out a cookie [c], [session_start] returns
    [FALSE], [pam_session_close] is called exactly once and
    [ck_close_session] exactly once, on [c]; the cookie stored in the
    session is still [c]. *)
Theorem launch_failure_rollback (w : World) (st : State) (a : PAMSession)
  (cmd abs c : string) :
  authentication (session st) = Some a ->
  command (session st) = Some cmd ->
  get_absolute_command w cmd = Some abs ->
  getuid w = 0 ->
  ck_open_session w (ck_parameters (session st) a) = Some c ->
  process_start_result w = false ->
  let r := session_start session_class w st in
  r.1 = Ret false
  /\ (exists evs, trace r.2 = trace st ++ evs
                  /\ calls is_pam_close evs = 1%nat
                  /\ calls is_ck_close evs = 1%nat
                  /\ List.filter is_ck_close evs = [EvCkClose c])
  /\ console_kit_cookie (session r.2) = Some c.
Proof.
  intros Ha Hc Habs Huid Hck Hps. simpl.
  rewrite (session_start_launch_failure w st a cmd abs Ha Hc Habs Hps).
  assert (Hcookie : stored_cookie w (session st) a = Some c).
  { unfold stored_cookie. by rewrite Huid. }
  simpl. split; [done |]. split.
  - eexists. split; [reflexivity |].
    unfold opening_events, rollback_events. rewrite Hcookie, Huid. simpl.
    by repeat split.
  - unfold registered. simpl. by rewrite stored_cookie_seeded.
Qed.

Lemma launch_failure_rollback_witness :
  let r := session_start session_class root_world_no_launch
             (mkState alice_session []) in
  r.1 = Ret false /\ console_kit_cookie (session r.2) = Some "ck-1".
Proof.
  pose proof (launch_failure_rollback root_world_no_launch
                (mkState alice_session []) alice_pam "xterm -e top"
                "/usr/bin/xterm -e top" "ck-1"
                eq_refl eq_refl eq_refl eq_refl eq_refl eq_refl) as H.
  simpl in H. destruct H as (H1 & _ & H3). split; assumption.
Defined.

(** C5, as the specification words it, fails: after the rollback of a failed
    launch the session of alice still stores the cookie. *)
Lemma launch_failure_cookie_not_absent :
  console_kit_cookie
    (session (session_start session_class root_world_no_launch
                (mkState alice_session [])).2) = Some "ck-1"
  /\ ~ rollback_clears_cookie root_world_no_launch (mkState alice_session []).
Proof.
  split; [reflexivity |].
  unfold rollback_clears_cookie. intros (_ & _ & H).
  vm_compute in H. discriminate H.
Qed.

(** What [session_stopped] does: the calls, and a session that differs
    only in not running any more. *)
Lemma session_stopped_result (w : World) (st : State) :
  session_stopped w st
  = (Ret tt,
     mkState (set_running false (session st))
       (trace st ++ rollback_events w (console_kit_cookie (session st))
        ++ [EvProcessStopped])).
Proof.
  unfold session_stopped, rollback_events, bind, get_session,
    pam_session_close, emit. simpl.
  destruct (getuid w =? 0), (console_kit_cookie (session st));
    unfold process_stopped, ck_close_session, bind, modify_session, emit, ret;
    simpl; rewrite <- ?app_assoc; reflexivity.
Qed.




(** A setup hook that fails makes [session_real_start] return at once:
    whatever was opened stays open. *)
Lemma setup_failure_returns_early (klass : SessionClass) (w : World)
  (st : State) (a : PAMSession) (cmd abs : string) :
  klass_start klass = None ->
  (forall s, (klass_setup klass s).1 = false) ->
  authentication (session st) = Some a ->
  command (session st) = Some cmd ->
  get_absolute_command w cmd = Some abs ->
  exists s',
    session_start klass w st
    = (Ret false, mkState s' (trace st ++ opening_events w (session st) a)).
Proof.
  intros Hk Hfail Ha Hc Habs.
  rewrite (session_start_seeds klass w st a cmd Ha Hc).
  unfold dispatch_start. rewrite Hk.
  unfold session_real_start, bind at 1, get_session. simpl.
  rewrite Hc, Habs.
  unfold opening_events, ck_parameters.
  destruct st as [s tr]; simpl in *.
  destruct (getuid w =? 0) eqn:Huid;
    unfold bind, process_set_command, pam_session_open, the_authentication,
      ck_open, set_console_kit_cookie, call_setup,
      session_set_env, process_set_env,
      emit, modify_session, get_session, ret, with_parent;
    simpl; rewrite ?Ha; simpl.
  all: repeat match goal with
       | |- context [ck_open_session ?w ?p] =>
           destruct (ck_open_session w p) eqn:?; simpl
       | |- context [g_getenv ?w ?n] =>
           destruct (g_getenv w n) eqn:?; simpl
       end.
  all: unfold bind; simpl.
  all: match goal with
       | |- context [klass_setup ?k ?s] =>
           pose proof (Hfail s) as Hf; destruct (klass_setup k s) as [ok s'];
           simpl in Hf; subst ok; simpl
       end.
  all: rewrite <- ?app_assoc; simpl; by eexists.
Qed.

(** C3 fails on the code: with a setup hook that reports failure, root's
    start of alice's session returns [FALSE] after opening PAM and the
    ConsoleKit session, and closes neither; the cookie stays stored. *)
Theorem setup_failure_leaves_session_open :
  let r := session_start failing_setup_class root_world
             (mkState alice_session []) in
  r.1 = Ret false
  /\ trace r.2
     = [EvPamOpen; EvCkOpen [("unix-user", g_variant_new_int32 1000)]; EvSetup]
  /\ calls is_pam_close (trace r.2) = 0%nat
  /\ calls is_ck_close (trace r.2) = 0%nat
  /\ console_kit_cookie (session r.2) = Some "ck-1"
  /\ ~ setup_failure_rolls_back failing_setup_class root_world
         (mkState alice_session []).
Proof.
  simpl. repeat split.
  unfold setup_failure_rolls_back. intros (_ & evs & Htr & Hpam & _).
  vm_compute in Htr. subst evs. vm_compute in Hpam. discriminate Hpam.
Qed.

(** ** The child *)

Lemma with_env_id (s : Session) : with_env (env (parent_instance s)) s = s.
Proof. by destruct s as [[] ??????]. Qed.

Lemma session_set_env_result (name value : string) (st : State) :
  session_set_env name value st
  = (Ret tt, mkState (with_env (<[name := value]> (environment st)) (session st))
                     (trace st)).
Proof. reflexivity. Qed.

Lemma set_env_from_entries_result (pam_env : list string) (st : State) :
  set_env_from_entries pam_env st
  = (Ret tt,
     mkState (with_env (overlay (environment st) (omap parse_override pam_env))
                       (session st))
             (trace st)).
Proof.
  revert st. induction pam_env as [| entry rest IH]; intros st.
  - simpl. unfold ret, environment. rewrite with_env_id. by destruct st.
  - cbn [set_env_from_entries omap list_omap]. unfold bind, parse_override.
    destruct (GLib.g_strsplit_2 entry "=") as [| name [| value tl]].
    + unfold ret. apply IH.
    + unfold ret. apply IH.
    + rewrite session_set_env_result, IH. reflexivity.
Qed.

Lemma setup_log_file_result (w : World) (st : State) :
  setup_log_file w st
  = (Ret tt, mkState (session st) (trace st ++ log_file_events w (session st))).
Proof.
  unfold setup_log_file, log_file_events, bind, get_session.
  destruct st as [s tr]. simpl.
  destruct (log_file s) as [path |]; simpl.
  - unfold g_open, bind, emit, ret. simpl.
    destruct (sys_open w path <? 0); simpl.
    + reflexivity.
    + unfold dup2, close, emit. simpl. by rewrite <- !app_assoc.
  - unfold ret. by rewrite app_nil_r.
Qed.

Lemma bind_Ret {A B} (m : M A) (k : A -> M B) (st st' : State) (x : A) :
  m st = (Ret x, st') -> bind m k st = k x st'.
Proof. intros H. unfold bind. by rewrite H. Qed.

Lemma bind_Exit {A B} (m : M A) (k : A -> M B) (st st' : State) (c : Z) :
  m st = (Exit c, st') -> bind m k st = (Exit c, st').
Proof. intros H. unfold bind. by rewrite H. Qed.

Lemma emit_result (e : Event) (st : State) :
  emit e st = (Ret tt, mkState (session st) (trace st ++ [e])).
Proof. reflexivity. Qed.

(** The identity change: the calls made are a prefix of the three, in the
    order of the code, cut after the first that fails. *)
Lemma change_to_user_result (w : World) (u : User) (st : State) :
  change_to_user w u st
  = let '(n, ok) := identity_progress w u in
    (if ok then Ret tt else Exit EXIT_FAILURE,
     mkState (session st)
       (trace st ++ take n (identity_change u)
        ++ if ok then [] else [EvExit EXIT_FAILURE])).
Proof.
  unfold change_to_user, identity_progress, identity_change.
  unfold bind, initgroups, setgid, setuid, emit, ret, _exit. simpl.
  destruct (sys_initgroups w (user_get_name u) (user_get_gid u) <? 0); simpl;
    [by rewrite <- ?app_assoc |].
  destruct (sys_setgid w (user_get_gid u) =? 0); simpl;
    [| by rewrite <- ?app_assoc].
  destruct (sys_setuid w (user_get_uid u) =? 0); simpl;
    by rewrite <- ?app_assoc.
Qed.

(** The end of [session_run]: the PAM setup, the three layers laid over
    the environment, and the execution of the command. *)
Lemma session_run_tail (w : World) (a : PAMSession) (st : State) :
  authentication (session st) = Some a ->
  (pam_session_setup ;;
   set_env_from_authentication a ;;
   set_locale ;;
   insert_utility_path w ;;
   process_run w) st
  = (Ret tt,
     mkState (child_session w a (session st))
       (trace st
        ++ [EvPamSetup;
            EvExec (process_command (parent_instance (session st)))
                   (child_environ w
                      (parent_instance (child_session w a (session st))))])).
Proof.
  intros Ha. destruct st as [s tr]. simpl in Ha.
  erewrite bind_Ret by apply emit_result.
  assert (Henv : forall st0,
    set_env_from_authentication a st0
    = (Ret tt,
       mkState (with_env (overlay (environment st0) (authentication_overrides a))
                         (session st0))
               (trace st0))).
  { intros st0. unfold set_env_from_authentication, authentication_overrides.
    destruct (pam_session_get_envlist a).
    - apply set_env_from_entries_result.
    - unfold ret, environment. simpl. rewrite with_env_id. by destruct st0. }
  erewrite bind_Ret by apply Henv.
  unfold child_session, final_environment, locale_override, with_utility_path,
    environment.
  unfold set_locale, the_authentication, insert_utility_path, session_get_env,
    process_get_env, process_run, bind, get_session, ret. simpl.
  rewrite Ha. simpl.
  destruct (user_get_locale (pam_session_get_user a)) as [locale |]; simpl.
  - match goal with
    | |- context [match ?m !! "PATH" with _ => _ end] =>
        destruct (m !! "PATH") eqn:Hpath
    end; unfold session_set_env, process_set_env, modify_session, emit, ret;
      simpl; rewrite <- ?app_assoc; reflexivity.
  - match goal with
    | |- context [match ?m !! "PATH" with _ => _ end] =>
        destruct (m !! "PATH") eqn:Hpath
    end; unfold session_set_env, process_set_env, modify_session, emit, ret;
      simpl; rewrite <- ?app_assoc; reflexivity.
Qed.

(** What [session_run] does, call by call: the prelude, the identity change
    as far as it gets, and then either [_exit] or the late log file, the PAM
    setup, the environment and the execution of the command. *)
Lemma session_run_result (w : World) (st : State) (a : PAMSession) :
  authentication (session st) = Some a ->
  let s := session st in
  let u := pam_session_get_user a in
  let pre := run_prelude w s u in
  let progress :=
    if getuid w =? 0 then identity_progress w u else (0%nat, true) in
  let ids := take progress.1 (identity_change u) in
  session_run w st
  = if negb (sys_chdir w (user_get_home_directory u) =? 0)
    then (Exit EXIT_FAILURE,
          mkState s (trace st ++ pre ++ [EvExit EXIT_FAILURE]))
    else if progress.2
    then (Ret tt,
          mkState (child_session w a s)
            (trace st ++ pre ++ ids
             ++ (if log_file_as_user s then log_file_events w s else [])
             ++ [EvPamSetup;
                 EvExec (process_command (parent_instance s))
                        (child_environ w
                           (parent_instance (child_session w a s)))]))
    else (Exit EXIT_FAILURE,
          mkState s (trace st ++ pre ++ ids ++ [EvExit EXIT_FAILURE])).
Proof.
  intros Ha. destruct st as [s tr]. simpl in Ha. cbv zeta.
  cbn [session trace].
  unfold session_run, run_prelude.
  unfold g_open, setsid, chdir.
  repeat (erewrite bind_Ret by (first [apply emit_result | reflexivity])).
  cbn [session trace].
  assert (Hlog : forall (b : bool) st0,
    when b (setup_log_file w) st0
    = (Ret tt, mkState (session st0)
                 (trace st0 ++ if b then log_file_events w (session st0)
                               else []))).
  { intros [] st0; simpl.
    - apply setup_log_file_result.
    - unfold ret. rewrite app_nil_r. by destruct st0. }
  erewrite bind_Ret by apply Hlog.
  repeat (erewrite bind_Ret by (first [apply emit_result | reflexivity])).
  cbn [session trace].
  unfold the_authentication.
  erewrite bind_Ret by (unfold bind, get_session; simpl; rewrite Ha; reflexivity).
  repeat (erewrite bind_Ret by (first [apply emit_result | reflexivity])).
  cbn [session trace].
  destruct (sys_chdir w (user_get_home_directory (pam_session_get_user a)) =? 0);
    cbn [negb].
  - assert (Hid : forall st0,
      when (getuid w =? 0) (change_to_user w (pam_session_get_user a)) st0
      = let progress :=
          if getuid w =? 0 then identity_progress w (pam_session_get_user a)
          else (0%nat, true) in
        (if progress.2 then Ret tt else Exit EXIT_FAILURE,
         mkState (session st0)
           (trace st0 ++ take progress.1 (identity_change (pam_session_get_user a))
            ++ if progress.2 then [] else [EvExit EXIT_FAILURE]))).
    { intros st0. destruct (getuid w =? 0); simpl when.
      - rewrite change_to_user_result.
        by destruct (identity_progress w (pam_session_get_user a)).
      - unfold ret. simpl. rewrite app_nil_r. by destruct st0. }
    destruct ((if getuid w =? 0
               then identity_progress w (pam_session_get_user a)
               else (0%nat, true)).2) eqn:Hok.
    + erewrite bind_Ret by (rewrite Hid; cbv zeta; rewrite Hok; reflexivity).
      erewrite bind_Ret by apply Hlog.
      cbn [session trace].
      rewrite session_run_tail by exact Ha.
      cbn [session trace]. rewrite app_nil_r.
      destruct (log_file_as_user s); cbn [negb];
        repeat (rewrite <- ?app_assoc; simpl); reflexivity.
    + erewrite bind_Exit by (rewrite Hid; cbv zeta; rewrite Hok; reflexivity).
      cbn [session trace].
      destruct (log_file_as_user s); cbn [negb];
        repeat (rewrite <- ?app_assoc; simpl); reflexivity.
  - unfold _exit. cbn [session trace].
    destruct (log_file_as_user s); cbn [negb];
      repeat (rewrite <- ?app_assoc; simpl); reflexivity.
Qed.

Lemma filter_bystanders (kind : Event -> bool) (l : list Event) :
  (forall e, is_bystander e = true -> kind e = false) ->
  forallb is_bystander l = true ->
  List.filter kind l = [].
Proof.
  intros Hkind. induction l as [| e l IH]; simpl; [done |].
  intros [He Hl]%andb_true_iff. rewrite (Hkind e He). by apply IH.
Qed.

Lemma log_file_events_bystanders (w : World) (s : Session) :
  forallb is_bystander (log_file_events w s) = true.
Proof.
  unfold log_file_events. destruct (log_file s) as [path |]; [| done].
  by destruct (sys_open w path <? 0).
Qed.

Lemma run_prelude_bystanders (w : World) (s : Session) (u : User) :
  forallb is_bystander (run_prelude w s u) = true.
Proof.
  unfold run_prelude. rewrite !forallb_app.
  destruct (log_file_as_user s); simpl; [done |].
  by rewrite log_file_events_bystanders.
Qed.

Lemma bystander_not_identity_change (e : Event) :
  is_bystander e = true -> is_identity_change e = false.
Proof. by destruct e. Qed.

Lemma bystander_not_exec (e : Event) :
  is_bystander e = true -> is_exec e = false.
Proof. by destruct e. Qed.

(** The first execution in a trace that ends with the only one. *)
Lemma split_at_only_exec (front : list Event) (x : Event)
  (before after : list Event) (y : Event) :
  List.filter is_exec front = [] ->
  is_exec y = true ->
  front ++ [x] = before ++ y :: after ->
  before = front.
Proof.
  revert before. induction front as [| e front IH]; intros before Hno Hy Heq.
  - destruct before as [| b before]; [done |].
    simpl in Heq. injection Heq as _ Heq. by destruct before.
  - simpl in Hno. destruct (is_exec e) eqn:He; [done |].
    destruct before as [| b before]; simpl in Heq.
    + injection Heq as -> _. congruence.
    + injection Heq as -> Heq. f_equal. by apply IH.
Qed.

(** A trace without an execution is not split at one. *)
Ltac refute_exec Heq Hpre :=
  apply (f_equal (List.filter is_exec)) in Heq;
  rewrite !List.filter_app, Hpre in Heq; simpl in Heq;
  match type of Heq with
  | _ = List.filter is_exec ?before ++ _ =>
      destruct (List.filter is_exec before); discriminate Heq
  end.

Lemma take_identity_change_prefix (n : nat) (u : User) :
  List.filter is_identity_change (take n (identity_change u))
  `prefix_of` identity_change u.
Proof.
  destruct n as [| [| [| [| n]]]]; simpl.
  - apply prefix_nil.
  - by exists [EvSetgid (user_get_gid u); EvSetuid (user_get_uid u)].
  - by exists [EvSetuid (user_get_uid u)].
  - by exists [].
  - by exists [].
Qed.

Lemma take_identity_change_no_exec (n : nat) (u : User) :
  List.filter is_exec (take n (identity_change u)) = [].
Proof. by destruct n as [| [| [| [| n]]]]. Qed.

(** C1: in the child run by root the three calls of the identity change
    are made, in the order initgroups, setgid, setuid, each only after the
    one before it succeeded, and the command is executed only after all
    three, as the last thing the child does.  When nothing fails the child
    makes all three and executes the command.  When chdir or one of the
    three fails, no later call of the three is made, the child leaves
    through [_exit (EXIT_FAILURE)] directly after the call that failed, and
    the command is not executed. *)
Theorem session_run_privilege_drop (w : World) (st : State) (a : PAMSession) :
  getuid w = 0 ->
  authentication (session st) = Some a ->
  let u := pam_session_get_user a in
  let r := session_run w st in
  exists evs,
    trace r.2 = trace st ++ evs
    /\ List.filter is_identity_change evs = identity_calls_made w u
    /\ List.filter is_identity_change evs `prefix_of` identity_change u
    /\ (forall before cmd e after,
          evs = before ++ EvExec cmd e :: after ->
          List.filter is_identity_change before = identity_change u
          /\ after = [])
    /\ (drop_fails w u = false ->
          r.1 = Ret tt
          /\ calls is_exec evs = 1%nat
          /\ List.filter is_identity_change evs = identity_change u)
    /\ (drop_fails w u = true ->
          r.1 = Exit EXIT_FAILURE
          /\ calls is_exec evs = 0%nat
          /\ exists front call,
               failing_call w u = Some call
               /\ evs = front ++ [call; EvExit EXIT_FAILURE]
               /\ is_drop_call call = true).
Proof.
  intros Huid Ha. cbv zeta.
  rewrite (session_run_result w st a Ha). cbv zeta.
  rewrite Huid. change (0 =? 0) with true. cbv iota.
  set (u := pam_session_get_user a).
  pose proof (run_prelude_bystanders w (session st) u) as Hpre.
  pose proof (filter_bystanders is_identity_change _
                bystander_not_identity_change Hpre) as Hpre_id.
  pose proof (filter_bystanders is_exec _ bystander_not_exec Hpre) as Hpre_ex.
  pose proof (log_file_events_bystanders w (session st)) as Hlog.
  unfold drop_fails, identity_calls_made, failing_call.
  destruct (sys_chdir w (user_get_home_directory u) =? 0) eqn:Hchdir;
    cbn [negb orb fst snd trace].
  - (* chdir succeeded *)
    unfold identity_progress.
    destruct (sys_initgroups w (user_get_name u) (user_get_gid u) <? 0)
      eqn:Hinit;
      [| destruct (sys_setgid w (user_get_gid u) =? 0) eqn:Hgid;
         [destruct (sys_setuid w (user_get_uid u) =? 0) eqn:Huid' |]];
      cbn [negb orb fst snd trace take identity_change];
      eexists; (split; [reflexivity |]).
    + (* initgroups failed *)
      split; [by rewrite !List.filter_app, Hpre_id |].
      split.
      { rewrite !List.filter_app, Hpre_id.
        by exists [EvSetgid (user_get_gid u); EvSetuid (user_get_uid u)]. }
      split.
      { intros before cmd e after Heq. exfalso.
        by refute_exec Heq Hpre_ex. }
      split; [done |].
      intros _. split; [done |]. split.
      { unfold calls. by rewrite !List.filter_app, Hpre_ex. }
      exists (run_prelude w (session st) u),
             (EvInitgroups (user_get_name u) (user_get_gid u)).
      by split.
    + (* everything succeeded *)
      assert (Hlate : forallb is_bystander
                (if log_file_as_user (session st)
                 then log_file_events w (session st) else []) = true).
      { by destruct (log_file_as_user (session st)). }
      assert (Hall : List.filter is_identity_change
                (run_prelude w (session st) u
                 ++ [EvInitgroups (user_get_name u) (user_get_gid u);
                     EvSetgid (user_get_gid u); EvSetuid (user_get_uid u)]
                 ++ (if log_file_as_user (session st)
                     then log_file_events w (session st) else [])
                 ++ [EvPamSetup;
                     EvExec (process_command (parent_instance (session st)))
                       (child_environ w
                          (parent_instance
                             (child_session w a (session st))))])
              = identity_change u).
      { rewrite !List.filter_app, Hpre_id.
        by rewrite (filter_bystanders is_identity_change _
                      bystander_not_identity_change Hlate). }
      split; [exact Hall |].
      split; [rewrite Hall; by exists [] |].
      split.
      { intros before cmd e after Heq.
        assert (Hbefore :
          before = run_prelude w (session st) u ++ identity_change u
                   ++ (if log_file_as_user (session st)
                       then log_file_events w (session st) else [])
                   ++ [EvPamSetup]).
        { eapply (split_at_only_exec _ _ before after (EvExec cmd e));
            [| done |].
          - rewrite !List.filter_app, Hpre_ex.
            by rewrite (filter_bystanders is_exec _ bystander_not_exec Hlate).
          - rewrite <- Heq. unfold identity_change.
            by rewrite <- !app_assoc. }
        split.
        - rewrite Hbefore, !List.filter_app, Hpre_id.
          rewrite (filter_bystanders is_identity_change _
                     bystander_not_identity_change Hlate).
          reflexivity.
        - rewrite Hbefore in Heq. unfold identity_change in Heq.
          rewrite <- !app_assoc in Heq.
          apply app_inv_head in Heq. cbn [app] in Heq.
          injection Heq as Heq. apply app_inv_head in Heq.
          inversion Heq. reflexivity. }
      split; [| done].
      intros _. split; [done |]. split; [| exact Hall].
      unfold calls. rewrite !List.filter_app, Hpre_ex.
      by rewrite (filter_bystanders is_exec _ bystander_not_exec Hlate).
    + (* setuid failed *)
      split; [by rewrite !List.filter_app, Hpre_id |].
      split; [rewrite !List.filter_app, Hpre_id; by exists [] |].
      split.
      { intros before cmd e after Heq. exfalso.
        by refute_exec Heq Hpre_ex. }
      split; [done |].
      intros _. split; [done |]. split.
      { unfold calls. by rewrite !List.filter_app, Hpre_ex. }
      exists (run_prelude w (session st) u
              ++ [EvInitgroups (user_get_name u) (user_get_gid u);
                  EvSetgid (user_get_gid u)]),
             (EvSetuid (user_get_uid u)).
      split; [done |]. split; [| done]. by rewrite <- !app_assoc.
    + (* setgid failed *)
      split; [by rewrite !List.filter_app, Hpre_id |].
      split.
      { rewrite !List.filter_app, Hpre_id.
        by exists [EvSetuid (user_get_uid u)]. }
      split.
      { intros before cmd e after Heq. exfalso.
        by refute_exec Heq Hpre_ex. }
      split; [done |].
      intros _. split; [done |]. split.
      { unfold calls. by rewrite !List.filter_app, Hpre_ex. }
      exists (run_prelude w (session st) u
              ++ [EvInitgroups (user_get_name u) (user_get_gid u)]),
             (EvSetgid (user_get_gid u)).
      split; [done |]. split; [| done]. by rewrite <- !app_assoc.
  - (* chdir failed *)
    eexists; (split; [reflexivity |]).
    split; [by rewrite !List.filter_app, Hpre_id |].
    split; [rewrite !List.filter_app, Hpre_id; apply prefix_nil |].
    split.
    { intros before cmd e after Heq. exfalso.
      by refute_exec Heq Hpre_ex. }
    split; [done |].
    intros _. split; [done |]. split.
    { unfold calls. by rewrite !List.filter_app, Hpre_ex. }
    unfold run_prelude.
    exists ([EvOpen "/dev/null";
             EvDup2 (sys_open w "/dev/null") STDIN_FILENO;
             EvClose (sys_open w "/dev/null")]
            ++ (if log_file_as_user (session st) then []
                else log_file_events w (session st))
            ++ [EvSetsid]),
           (EvChdir (user_get_home_directory u)).
    split; [done |]. split; [| done]. by rewrite <- !app_assoc.
Qed.

Lemma session_run_privilege_drop_witness :
  getuid root_world_setgid_fails = 0
  /\ drop_fails root_world_setgid_fails alice = true
  /\ (session_run root_world_setgid_fails (mkState alice_session [])).1
     = Exit EXIT_FAILURE
  /\ drop_fails root_world alice = false
  /\ (session_run root_world (mkState alice_session [])).1 = Ret tt.
Proof.
  split; [reflexivity |]. split; [reflexivity |].
  split.
  - destruct (session_run_privilege_drop root_world_setgid_fails
                (mkState alice_session []) alice_pam eq_refl eq_refl)
      as (evs & _ & _ & _ & _ & _ & Hfail).
    destruct (Hfail eq_refl) as (Hexit & _). exact Hexit.
  - split; [reflexivity |].
    destruct (session_run_privilege_drop root_world
                (mkState alice_session []) alice_pam eq_refl eq_refl)
      as (evs & _ & _ & _ & _ & Hok & _).
    destruct (Hok eq_refl) as (Hret & _). exact Hret.
Defined.

(** ** The environment of the child *)

Lemma overlay_lookup (layer : list (string * string)) (m : gmap string string)
  (name : string) :
  overlay m layer !! name
  = match last_binding name layer with
    | Some v => Some v
    | None => m !! name
    end.
Proof.
  revert m. induction layer as [| [k v] rest IH]; intros m; [done |].
  change (overlay m ((k, v) :: rest)) with (overlay (<[k := v]> m) rest).
  rewrite IH. simpl.
  destruct (last_binding name rest); [done |].
  rewrite lookup_insert. by destruct (decide (k = name)).
Qed.

Lemma with_utility_path_lookup (w : World) (m : gmap string string)
  (name : string) :
  with_utility_path w m !! name = prefix_utility_path w name (m !! name).
Proof.
  unfold with_utility_path, prefix_utility_path.
  destruct (decide (name = "PATH")) as [-> | Hne].
  - destruct (m !! "PATH") eqn:Hp; simpl.
    + by rewrite lookup_insert_eq.
    + by rewrite Hp.
  - destruct (m !! "PATH"); [| done]. by rewrite lookup_insert_ne.
Qed.

(** An entry [name=value] whose name holds no [=] is read as the binding
    of [name] to [value]. *)
Lemma split_first_name_value (name value : string) :
  GLib.occurs "=" name = false ->
  GLib.split_first "=" (name +:+ "=" +:+ value) = (name, Some value).
Proof.
  induction name as [| c name IH]; [done |].
  cbn [GLib.occurs]. intros [Hc Hname]%orb_false_iff.
  change (String c name +:+ "=" +:+ value)
    with (String c (name +:+ "=" +:+ value)).
  cbn [GLib.split_first]. by rewrite Hc, (IH Hname).
Qed.

Lemma parse_override_name_value (name value : string) :
  GLib.occurs "=" name = false ->
  parse_override (name +:+ "=" +:+ value) = Some (name, value).
Proof.
  intros Hname. unfold parse_override, GLib.g_strsplit_2.
  rewrite (split_first_name_value name value Hname).
  by destruct name.
Qed.

Lemma session_real_start_not_found (klass : SessionClass) (w : World)
  (st : State) (cmd : string) :
  command (session st) = Some cmd ->
  get_absolute_command w cmd = None ->
  session_real_start klass w st = (Ret false, st).
Proof.
  intros Hc Habs. unfold session_real_start, bind, get_session.
  by rewrite Hc, Habs.
Qed.

Lemma last_binding_app (name : string) (l1 l2 : list (string * string)) :
  last_binding name (l1 ++ l2)
  = match last_binding name l2 with
    | Some v => Some v
    | None => last_binding name l1
    end.
Proof.
  induction l1 as [| [k v] l1 IH]; simpl.
  - by destruct (last_binding name l2).
  - rewrite IH. by destruct (last_binding name l2).
Qed.

(** The last [HOME=...] entry of the PAM list gives the override of HOME. *)
Lemma last_home_entry (a : PAMSession) (before after : list string)
  (home : string) :
  pam_session_get_envlist a = Some (before ++ ("HOME=" +:+ home) :: after) ->
  last_binding "HOME" (omap parse_override after) = None ->
  last_binding "HOME" (authentication_overrides a) = Some home.
Proof.
  intros Hlist Hafter. unfold authentication_overrides. rewrite Hlist.
  rewrite omap_app, last_binding_app. cbn [omap list_omap].
  change ("HOME=" +:+ home) with ("HOME" +:+ "=" +:+ home).
  rewrite (parse_override_name_value "HOME" home eq_refl).
  cbn [last_binding]. rewrite Hafter. by rewrite decide_True.
Qed.

(** A start of the base class that returns [TRUE] has resolved the command
    and launched the process, and leaves the seeded and registered session
    running. *)
Lemma session_start_success_inv (w : World) (st st1 : State) (a : PAMSession) :
  authentication (session st) = Some a ->
  session_start session_class w st = (Ret true, st1) ->
  exists cmd abs,
    command (session st) = Some cmd
    /\ get_absolute_command w cmd = Some abs
    /\ process_start_result w = true
    /\ st1 = mkState
               (set_running true
                  (registered w abs a
                     (seeded (pam_session_get_user a) (session st))))
               (trace st ++ opening_events w (session st) a ++ [EvProcessStart]).
Proof.
  intros Ha Hstart.
  destruct (command (session st)) as [cmd |] eqn:Hc.
  - rewrite (session_start_seeds session_class w st a cmd Ha Hc) in Hstart.
    change (dispatch_start session_class w)
      with (session_real_start session_class w) in Hstart.
    destruct (get_absolute_command w cmd) as [abs |] eqn:Habs.
    + rewrite (session_real_start_resolved w _ a cmd abs) in Hstart; [| done..].
      cbv zeta in Hstart.
      destruct (process_start_result w) eqn:Hps; [| discriminate Hstart].
      exists cmd, abs. split; [done |]. split; [done |]. split; [done |].
      by injection Hstart as <-.
    + rewrite (session_real_start_not_found _ w _ cmd) in Hstart; [| done..].
      discriminate Hstart.
  - unfold session_start, bind, get_session in Hstart.
    rewrite Ha, Hc in Hstart. discriminate Hstart.
Qed.

(** A child that reaches the end of [session_run] has laid the three layers
    over the environment it started with. *)
Lemma session_run_success_inv (w : World) (st1 st2 : State) (a : PAMSession) :
  session_run w st1 = (Ret tt, st2) ->
  authentication (session st1) = Some a ->
  session st2 = child_session w a (session st1)
  /\ exists evs,
       trace st2
       = trace st1 ++ evs
         ++ [EvExec (process_command (parent_instance (session st1)))
                    (child_environ w (parent_instance (session st2)))].
Proof.
  intros Hrun Ha.
  rewrite (session_run_result w st1 a Ha) in Hrun. cbv zeta in Hrun.
  destruct (negb (sys_chdir w
              (user_get_home_directory (pam_session_get_user a)) =? 0));
    [discriminate Hrun |].
  match type of Hrun with
  | (if ?b then _ else _) = _ => destruct b; [| discriminate Hrun]
  end.
  apply (f_equal snd) in Hrun. cbn [snd] in Hrun. subst st2.
  cbn [session trace]. split; [done |].
  match goal with
  | |- exists evs, _ ++ ?pre ++ ?ids ++ ?late ++ [EvPamSetup; ?exec] = _ =>
      exists (pre ++ ids ++ late ++ [EvPamSetup])
  end.
  by rewrite <- !app_assoc.
Qed.

(** C2: after a start that succeeded, the environment of the child at the
    execution of the command gives every name the value of the topmost of
    these layers that binds it -- the locale ([LANG]), the overrides of the
    authentication (the last binding of a name winning), the session
    cookie, the five POSIX variables of the identity, the environment the
    session had before -- and [PATH] gets the utility directory put in
    front of that value.  In particular an override of [HOME] by the
    authentication wins over the home directory of the identity. *)
Theorem child_environment_layers (w : World) (st st1 st2 : State)
  (a : PAMSession) :
  authentication (session st) = Some a ->
  session_start session_class w st = (Ret true, st1) ->
  session_run w st1 = (Ret tt, st2) ->
  let u := pam_session_get_user a in
  let layers :=
    [locale_override u;
     authentication_overrides a;
     cookie_layer (console_kit_cookie (session st1));
     baseline u] in
  (forall name,
     environment st2 !! name
     = prefix_utility_path w name (lookup_layers name layers (environment st)))
  /\ (forall home,
        last_binding "HOME" (authentication_overrides a) = Some home ->
        environment st2 !! "HOME" = Some home)
  /\ (forall before after home,
        pam_session_get_envlist a
        = Some (before ++ ("HOME=" +:+ home) :: after) ->
        last_binding "HOME" (omap parse_override after) = None ->
        environment st2 !! "HOME" = Some home)
  /\ (exists evs cmd,
        trace st2
        = trace st1 ++ evs
          ++ [EvExec cmd (child_environ w (parent_instance (session st2)))]).
Proof.
  intros Ha Hstart Hrun u layers. subst u.
  destruct (session_start_success_inv w st st1 a Ha Hstart)
    as (cmd & abs & Hc & Habs & Hps & ->).
  destruct (session_run_success_inv w _ st2 a Hrun Ha) as (Hs2 & evs & Htr).
  assert (Hlookup : forall name,
    environment st2 !! name
    = prefix_utility_path w name (lookup_layers name layers (environment st))).
  { intros name. unfold environment. rewrite Hs2.
    unfold child_session, final_environment. cbn [with_env with_parent env
      parent_instance].
    rewrite with_utility_path_lookup. f_equal.
    rewrite !overlay_lookup. unfold layers, lookup_layers. cbn [foldr].
    destruct (last_binding name (locale_override _)); [done |].
    destruct (last_binding name (authentication_overrides a)); [done |].
    cbn [session console_kit_cookie set_running registered with_parent
         parent_instance env seeded].
    rewrite stored_cookie_seeded.
    destruct (stored_cookie w (session st) a) as [c |]; cbn [cookie_layer].
    - rewrite lookup_insert. cbn [last_binding].
      destruct (decide ("XDG_SESSION_COOKIE" = name)); [done |].
      by rewrite overlay_lookup.
    - cbn [last_binding]. by rewrite overlay_lookup. }
  assert (Hhome : forall home,
    last_binding "HOME" (authentication_overrides a) = Some home ->
    environment st2 !! "HOME" = Some home).
  { intros home Hhome. rewrite Hlookup.
    unfold prefix_utility_path, layers, lookup_layers. cbn [foldr].
    rewrite Hhome.
    destruct (decide ("HOME" = "PATH")) as [Heq |]; [discriminate Heq |].
    unfold locale_override. by destruct (user_get_locale _). }
  split; [exact Hlookup |]. split; [exact Hhome |]. split.
  - intros before after home Hlist Hafter.
    apply Hhome. by apply (last_home_entry a before after).
  - exists evs, (Some abs). exact Htr.
Qed.

Lemma child_environment_layers_witness :
  let st1 := (session_start session_class root_world
                (mkState alice_session [])).2 in
  let st2 := (session_run root_world st1).2 in
  environment st2 !! "HOME" = Some "/srv/alice"
  /\ environment st2 !! "PATH" = Some "/usr/lib/lightdm:/opt/bin"
  /\ environment st2 !! "LANG" = Some "en_GB.UTF-8"
  /\ environment st2 !! "USER" = Some "alice".
Proof.
  intros st1 st2.
  assert (H1 : session_start session_class root_world
                 (mkState alice_session []) = (Ret true, st1))
    by (vm_compute; reflexivity).
  assert (H2 : session_run root_world st1 = (Ret tt, st2))
    by (vm_compute; reflexivity).
  destruct (child_environment_layers root_world (mkState alice_session [])
              st1 st2 alice_pam eq_refl H1 H2) as (Hl & Hhome & _ & _).
  split; [apply Hhome; vm_compute; reflexivity |].
  rewrite !Hl. vm_compute. repeat split.
Defined.

(** ** The inherited environment *)

Lemma keeps_clear_ret {A} (x : A) : keeps_clear (ret x).
Proof. by intros st. Qed.

Lemma keeps_clear_fault {A} : keeps_clear (@fault A).
Proof. by intros st. Qed.

Lemma keeps_clear_exit {A} (c : Z) : keeps_clear (@_exit A c).
Proof. by intros st. Qed.

Lemma keeps_clear_emit (e : Event) : keeps_clear (emit e).
Proof. by intros st. Qed.

Lemma keeps_clear_get_session : keeps_clear get_session.
Proof. by intros st. Qed.

Lemma keeps_clear_modify (f : Session -> Session) :
  (forall s, clear_environment (parent_instance (f s))
             = clear_environment (parent_instance s)) ->
  keeps_clear (modify_session f).
Proof. intros Hf st. apply Hf. Qed.

Lemma keeps_clear_bind {A B} (m : M A) (k : A -> M B) :
  keeps_clear m -> (forall x, keeps_clear (k x)) -> keeps_clear (bind m k).
Proof.
  intros Hm Hk st. unfold bind. specialize (Hm st).
  destruct (m st) as [[x | c |] st']; simpl in *; [| done..].
  by rewrite Hk.
Qed.

Lemma keeps_clear_when (b : bool) (m : M unit) :
  keeps_clear m -> keeps_clear (when b m).
Proof. intros Hm. destruct b; [done | apply keeps_clear_ret]. Qed.

Create HintDb keeps discriminated.
#[local] Hint Resolve keeps_clear_ret keeps_clear_fault keeps_clear_exit
  keeps_clear_emit keeps_clear_get_session keeps_clear_when : keeps.

(** Take a computation apart along its binds and its case distinctions. *)
Ltac keeps_step :=
  match goal with
  | |- keeps_clear (bind _ _) => apply keeps_clear_bind; [| intros ?]
  | |- keeps_clear (modify_session _) => apply keeps_clear_modify; by intros []
  | |- keeps_clear (when _ _) => apply keeps_clear_when
  | |- keeps_clear (match ?x with _ => _ end) => destruct x
  | |- keeps_clear _ => by auto with keeps
  end.

Lemma keeps_clear_session_set_env (name value : string) :
  keeps_clear (session_set_env name value).
Proof. unfold session_set_env, process_set_env. repeat keeps_step. Qed.
#[local] Hint Resolve keeps_clear_session_set_env : keeps.

Lemma keeps_clear_call_setup : keeps_clear (call_setup session_class).
Proof. by intros st. Qed.

Lemma keeps_clear_process_start (w : World) : keeps_clear (process_start w).
Proof. unfold process_start. repeat keeps_step. Qed.

Lemma keeps_clear_ck_open (w : World) (parameters : list (string * GVariant)) :
  keeps_clear (ck_open w parameters).
Proof. unfold ck_open. repeat keeps_step. Qed.

Lemma keeps_clear_the_authentication : keeps_clear the_authentication.
Proof. unfold the_authentication. repeat keeps_step. Qed.
#[local] Hint Resolve keeps_clear_call_setup keeps_clear_process_start
  keeps_clear_ck_open keeps_clear_the_authentication : keeps.

Lemma keeps_clear_session_real_start (w : World) :
  keeps_clear (session_real_start session_class w).
Proof.
  unfold session_real_start, process_set_command, pam_session_open,
    pam_session_close, ck_close_session, set_console_kit_cookie.
  repeat keeps_step.
Qed.
#[local] Hint Resolve keeps_clear_session_real_start : keeps.

Lemma keeps_clear_session_start (w : World) :
  keeps_clear (session_start session_class w).
Proof. unfold session_start, dispatch_start. simpl. repeat keeps_step. Qed.

Lemma keeps_clear_setup_log_file (w : World) : keeps_clear (setup_log_file w).
Proof. unfold setup_log_file, g_open, dup2, close. repeat keeps_step. Qed.
#[local] Hint Resolve keeps_clear_setup_log_file : keeps.

Lemma keeps_clear_set_env_from_entries (pam_env : list string) :
  keeps_clear (set_env_from_entries pam_env).
Proof.
  induction pam_env as [| entry rest IH]; simpl; [apply keeps_clear_ret |].
  apply keeps_clear_bind; [| by intros _].
  repeat keeps_step.
Qed.
#[local] Hint Resolve keeps_clear_set_env_from_entries : keeps.

Lemma keeps_clear_session_run (w : World) : keeps_clear (session_run w).
Proof.
  unfold session_run, g_open, dup2, close, setsid, chdir, change_to_user,
    initgroups, setgid, setuid, pam_session_setup,
    set_env_from_authentication, set_locale, insert_utility_path,
    session_get_env, process_get_env, process_run.
  repeat keeps_step.
Qed.

Lemma keeps_clear_call (w : World) (c : Call) : keeps_clear (call w c).
Proof.
  destruct c; simpl.
  1-6: by repeat keeps_step.
  - apply keeps_clear_bind; [apply keeps_clear_session_start |].
    intros _. apply keeps_clear_ret.
  - unfold session_lock, ck_lock_session. repeat keeps_step.
  - unfold session_unlock, ck_unlock_session. repeat keeps_step.
  - unfold session_stop, process_get_is_running, call_cleanup, process_signal.
    simpl. repeat keeps_step.
  - unfold session_stopped, pam_session_close, ck_close_session,
      process_stopped.
    repeat keeps_step.
  - apply keeps_clear_session_run.
Qed.

Lemma session_run_no_authentication (w : World) (st : State) :
  authentication (session st) = None ->
  (session_run w st).1 = Fault.
Proof.
  intros Ha. destruct st as [s tr]. simpl in Ha.
  unfold session_run, g_open, setsid.
  repeat (erewrite bind_Ret by (first [apply emit_result | reflexivity])).
  cbn [session trace].
  assert (Hlog : forall (b : bool) st0,
    when b (setup_log_file w) st0
    = (Ret tt, mkState (session st0)
                 (trace st0 ++ if b then log_file_events w (session st0)
                               else []))).
  { intros [] st0; simpl.
    - apply setup_log_file_result.
    - unfold ret. rewrite app_nil_r. by destruct st0. }
  erewrite bind_Ret by apply Hlog.
  repeat (erewrite bind_Ret by (first [apply emit_result | reflexivity])).
  cbn [session trace].
  unfold the_authentication, bind at 1, bind at 1, get_session.
  cbn [session]. by rewrite Ha.
Qed.

Lemma after_calls_clears (w : World) (history : list Call) (st : State) :
  clears (after_calls w history st) = clears st.
Proof.
  revert st. induction history as [| c history IH]; intros st; [done |].
  change (after_calls w (c :: history) st)
    with (after_calls w history (call w c st).2).
  rewrite IH. apply keeps_clear_call.
Qed.

(** C10: a session starts its life, in [session_init], with the inherited
    environment cleared, and no call of session.h changes that; so whatever
    the history of a session, the environment its child executes the
    command with is the environment mapping of the session and nothing
    else, whatever the environment of the display manager holds. *)
Theorem session_clears_inherited_environment (w : World) (p : Process)
  (history : list Call) :
  let st := after_calls w history (mkState (session_init p) []) in
  clears (mkState (session_init p) []) = true
  /\ clears st = true
  /\ child_environ w (parent_instance (session st)) = environment st
  /\ (forall st',
        session_run w st = (Ret tt, st') ->
        exists evs cmd,
          trace st' = trace st ++ evs ++ [EvExec cmd (environment st')]).
Proof.
  intros st.
  assert (Hclears : clears st = true) by apply after_calls_clears.
  split; [done |]. split; [done |]. split.
  - unfold child_environ. unfold clears in Hclears. by rewrite Hclears.
  - intros st' Hrun.
    destruct (authentication (session st)) as [a |] eqn:Ha.
    + destruct (session_run_success_inv w st st' a Hrun Ha) as (_ & evs & Htr).
      exists evs, (process_command (parent_instance (session st))).
      rewrite Htr. do 4 f_equal.
      assert (Hclears' : clears st' = true).
      { pose proof (keeps_clear_session_run w st) as Hk.
        rewrite Hrun in Hk. simpl in Hk. by rewrite Hk. }
      unfold child_environ. unfold clears in Hclears'. by rewrite Hclears'.
    + pose proof (session_run_no_authentication w st Ha) as Hfault.
      rewrite Hrun in Hfault. discriminate Hfault.
Qed.

Lemma session_clears_inherited_environment_witness :
  let st := after_calls root_world
              [CallSetAuthentication alice_pam;
               CallSetCommand (Some "xterm -e top");
               CallStart]
              (mkState (session_init fresh_process) []) in
  let st' := (session_run root_world st).2 in
  environ root_world !! "TERM" = Some "linux"
  /\ environment st' !! "TERM" = None
  /\ exists evs cmd,
       trace st' = trace st ++ evs ++ [EvExec cmd (environment st')].
Proof.
  intros st st'.
  split; [reflexivity |]. split; [vm_compute; reflexivity |].
  destruct (session_clears_inherited_environment root_world fresh_process
              [CallSetAuthentication alice_pam;
               CallSetCommand (Some "xterm -e top");
               CallStart]) as (_ & _ & _ & Hexec).
  apply Hexec. vm_compute. reflexivity.
Defined.

(** * Further properties of session.c *)

(** ** Command resolution *)

Lemma split_first_spec (d : ascii) (s : string) :
  match GLib.split_first d s with
  | (a, Some b) => s = a +:+ String d b /\ GLib.occurs d a = false
  | (a, None) => a = s /\ GLib.occurs d s = false
  end.
Proof.
  induction s as [| c s IH]; cbn [GLib.split_first GLib.occurs]; [done |].
  destruct (Ascii.eqb c d) eqn:Hc.
  - apply Ascii.eqb_eq in Hc as ->. by split.
  - destruct (GLib.split_first d s) as [a [b |]]; simpl.
    + destruct IH as [-> Ha]. cbn [GLib.occurs]. by rewrite Hc.
    + destruct IH as [-> Hs]. by split.
Qed.

Lemma split_first_prefix (d : ascii) (a b : string) :
  GLib.occurs d a = false ->
  GLib.split_first d (a +:+ String d b) = (a, Some b).
Proof.
  induction a as [| c a IH]; cbn [GLib.occurs].
  - intros _. simpl. by rewrite Ascii.eqb_refl.
  - intros [Hc Ha]%orb_false_iff.
    change (String c a +:+ String d b) with (String c (a +:+ String d b)).
    cbn [GLib.split_first]. by rewrite Hc, (IH Ha).
Qed.

Lemma split_first_no_occurrence (d : ascii) (s : string) :
  GLib.occurs d s = false -> GLib.split_first d s = (s, None).
Proof.
  induction s as [| c s IH]; cbn [GLib.occurs GLib.split_first]; [done |].
  intros [Hc Hs]%orb_false_iff. by rewrite Hc, (IH Hs).
Qed.

(** X1: only the program is resolved, the arguments are kept verbatim: for a
    command [prog args] (the program holding no space) the absolute command
    is the resolved program, a space, and [args] unchanged, spaces
    included; it is [NULL] exactly when the program is not found. *)
Theorem get_absolute_command_keeps_arguments (w : World) (prog args : string) :
  GLib.occurs " " prog = false ->
  get_absolute_command w (prog +:+ " " +:+ args)
  = (fun absolute_binary => absolute_binary +:+ " " +:+ args)
      <$> g_find_program_in_path w prog.
Proof.
  intros Hprog. unfold get_absolute_command, GLib.g_strsplit_2.
  change (prog +:+ " " +:+ args) with (prog +:+ String " " args).
  rewrite (split_first_prefix " " prog args Hprog).
  destruct (prog +:+ String " " args) eqn:Hs; [by destruct prog |].
  simpl. by destruct (g_find_program_in_path w prog).
Qed.

Lemma get_absolute_command_keeps_arguments_witness :
  get_absolute_command root_world "xterm -e top  -d 1"
  = Some "/usr/bin/xterm -e top  -d 1".
Proof.
  exact (get_absolute_command_keeps_arguments root_world "xterm"
           "-e top  -d 1" eq_refl).
Defined.

(** X2: a command without arguments resolves to what the path lookup gives
    for it, and the empty command resolves to nothing, whatever the path
    lookup would answer. *)
Theorem get_absolute_command_single_token (w : World) (cmd : string) :
  GLib.occurs " " cmd = false ->
  get_absolute_command w cmd
  = if decide (cmd = EmptyString) then None else g_find_program_in_path w cmd.
Proof.
  intros Hcmd. unfold get_absolute_command, GLib.g_strsplit_2.
  rewrite (split_first_no_occurrence " " cmd Hcmd).
  destruct cmd as [| c cmd]; [done |].
  rewrite decide_False by done. simpl.
  by destruct (g_find_program_in_path w (String c cmd)).
Qed.

Lemma get_absolute_command_single_token_witness :
  get_absolute_command root_world "xterm" = Some "/usr/bin/xterm"
  /\ get_absolute_command absolute_world EmptyString = None.
Proof.
  split.
  - exact (get_absolute_command_single_token root_world "xterm" eq_refl).
  - exact (get_absolute_command_single_token absolute_world EmptyString
             eq_refl).
Defined.

(** X3: splitting and joining lose nothing: when the program of a command
    resolves to itself (it is an absolute path already), the absolute
    command is the command. *)
Theorem get_absolute_command_of_absolute (w : World) (cmd program : string) :
  program_token cmd = Some program ->
  g_find_program_in_path w program = Some program ->
  get_absolute_command w cmd = Some cmd.
Proof.
  unfold program_token, get_absolute_command, GLib.g_strsplit_2.
  intros Htoken Hfind.
  destruct cmd as [| c cmd]; [done |].
  pose proof (split_first_spec " " (String c cmd)) as Hsplit.
  destruct (GLib.split_first " " (String c cmd)) as [a [b |]];
    simpl in Htoken; injection Htoken as ->; simpl; rewrite Hfind.
  - destruct Hsplit as [-> _]. reflexivity.
  - destruct Hsplit as [-> _]. reflexivity.
Qed.

Lemma get_absolute_command_of_absolute_witness :
  get_absolute_command absolute_world "/usr/bin/xterm -e top"
  = Some "/usr/bin/xterm -e top".
Proof.
  exact (get_absolute_command_of_absolute absolute_world
           "/usr/bin/xterm -e top" "/usr/bin/xterm" eq_refl eq_refl).
Defined.

(** ** The environment list of PAM *)

Lemma set_env_from_authentication_result (a : PAMSession) (st : State) :
  set_env_from_authentication a st
  = (Ret tt,
     mkState (with_env (overlay (environment st) (authentication_overrides a))
                       (session st))
             (trace st)).
Proof.
  unfold set_env_from_authentication, authentication_overrides.
  destruct (pam_session_get_envlist a).
  - apply set_env_from_entries_result.
  - unfold ret, environment. simpl. rewrite with_env_id. by destruct st.
Qed.

Lemma overlay_twice (m : gmap string string) (layer : list (string * string)) :
  overlay (overlay m layer) layer = overlay m layer.
Proof.
  apply map_eq. intros name. rewrite !overlay_lookup.
  by destruct (last_binding name layer).
Qed.

Lemma parse_override_malformed (entry : string) :
  GLib.occurs "=" entry = false -> parse_override entry = None.
Proof.
  intros Hentry. unfold parse_override, GLib.g_strsplit_2.
  rewrite (split_first_no_occurrence "=" entry Hentry).
  by destruct entry.
Qed.

(** X4: taking the environment of PAM over is idempotent: doing it a second
    time leaves the state the first time produced. *)
Theorem set_env_from_authentication_idempotent (a : PAMSession) (st : State) :
  (set_env_from_authentication a ;; set_env_from_authentication a) st
  = set_env_from_authentication a st.
Proof.
  erewrite bind_Ret by apply set_env_from_authentication_result.
  rewrite !set_env_from_authentication_result.
  unfold environment. cbn [session trace with_env with_parent env
    parent_instance].
  by rewrite overlay_twice.
Qed.

(** X5: an entry of the PAM list without [=] is skipped, wherever it stands:
    the list with the entry and the list without it have the same effect. *)
Theorem set_env_from_entries_skips_malformed
  (before after : list string) (entry : string) (st : State) :
  GLib.occurs "=" entry = false ->
  set_env_from_entries (before ++ entry :: after) st
  = set_env_from_entries (before ++ after) st.
Proof.
  intros Hentry. rewrite !set_env_from_entries_result, !omap_app.
  cbn [omap list_omap]. by rewrite (parse_override_malformed entry Hentry).
Qed.

Lemma set_env_from_entries_skips_malformed_witness :
  set_env_from_entries ["HOME=/srv/alice"; "BROKEN"; "PATH=/opt/bin"]
    (mkState alice_session [])
  = set_env_from_entries ["HOME=/srv/alice"; "PATH=/opt/bin"]
      (mkState alice_session []).
Proof.
  exact (set_env_from_entries_skips_malformed ["HOME=/srv/alice"] ["PATH=/opt/bin"]
           "BROKEN" (mkState alice_session []) eq_refl).
Defined.

(** X6: an entry [name=value] whose name holds no [=] sets [name] to
    [value] as it stands: the value may be empty and may hold further [=]
    signs, and nothing but the environment changes. *)
Theorem set_env_from_entries_binds_verbatim (name value : string) (st : State) :
  GLib.occurs "=" name = false ->
  set_env_from_entries [name +:+ "=" +:+ value] st
  = session_set_env name value st.
Proof.
  intros Hname. rewrite set_env_from_entries_result, session_set_env_result.
  cbn [omap list_omap].
  by rewrite (parse_override_name_value name value Hname).
Qed.

Lemma set_env_from_entries_binds_verbatim_witness :
  environment (set_env_from_entries ["OPTS=a=b"; "EMPTY="]
                 (mkState alice_session [])).2 !! "OPTS" = Some "a=b"
  /\ set_env_from_entries ["EMPTY="] (mkState alice_session [])
     = session_set_env "EMPTY" EmptyString (mkState alice_session []).
Proof.
  split; [vm_compute; reflexivity |].
  exact (set_env_from_entries_binds_verbatim "EMPTY" EmptyString
           (mkState alice_session []) eq_refl).
Defined.

(** ** More on the environment of the child *)

(** The value of a name in the environment of the child, by layers. *)
Lemma child_environment_lookup (w : World) (st st1 st2 : State)
  (a : PAMSession) (name : string) :
  authentication (session st) = Some a ->
  session_start session_class w st = (Ret true, st1) ->
  session_run w st1 = (Ret tt, st2) ->
  environment st2 !! name
  = prefix_utility_path w name
      (lookup_layers name
         [locale_override (pam_session_get_user a);
          authentication_overrides a;
          cookie_layer (console_kit_cookie (session st1));
          baseline (pam_session_get_user a)]
         (environment st)).
Proof.
  intros Ha Hstart Hrun.
  destruct (session_start_success_inv w st st1 a Ha Hstart)
    as (cmd & abs & Hc & Habs & Hps & ->).
  destruct (session_run_success_inv w _ st2 a Hrun Ha) as (Hs2 & _).
  unfold environment. rewrite Hs2.
  unfold child_session, final_environment.
  cbn [with_env with_parent env parent_instance].
  rewrite with_utility_path_lookup. f_equal.
  rewrite !overlay_lookup. unfold lookup_layers. cbn [foldr].
  destruct (last_binding name (locale_override _)); [done |].
  destruct (last_binding name (authentication_overrides a)); [done |].
  cbn [session console_kit_cookie set_running registered with_parent
       parent_instance env seeded].
  rewrite stored_cookie_seeded.
  destruct (stored_cookie w (session st) a) as [c |]; cbn [cookie_layer].
  - rewrite lookup_insert. cbn [last_binding].
    destruct (decide ("XDG_SESSION_COOKIE" = name)); [done |].
    by rewrite overlay_lookup.
  - cbn [last_binding]. by rewrite overlay_lookup.
Qed.



Ltac name_not_in_list :=
  let H := fresh in
  intros H;
  repeat (apply elem_of_cons in H as [H | H]; [discriminate H |]);
  by apply elem_of_nil in H.



(** X8: a variable put into the environment before the start reaches the
    child unchanged, unless it is one of the five POSIX variables, the
    session cookie, a name PAM binds, or the [LANG] of a user with a
    locale. *)
Theorem preset_variable_reaches_child (w : World) (st st1 st2 : State)
  (a : PAMSession) (name : string) :
  authentication (session st) = Some a ->
  session_start session_class w st = (Ret true, st1) ->
  session_run w st1 = (Ret tt, st2) ->
  name ∉ ["PATH"; "USER"; "LOGNAME"; "HOME"; "SHELL"; "XDG_SESSION_COOKIE"] ->
  last_binding name (authentication_overrides a) = None ->
  last_binding name (locale_override (pam_session_get_user a)) = None ->
  environment st2 !! name = environment st !! name.
Proof.
  intros Ha Hstart Hrun Hname Hpam Hlocale.
  rewrite (child_environment_lookup w st st1 st2 a name Ha Hstart Hrun).
  unfold prefix_utility_path, lookup_layers. cbn [foldr].
  rewrite Hpam, Hlocale.
  rewrite decide_False by set_solver.
  assert (Hcookie : last_binding name
                      (cookie_layer (console_kit_cookie (session st1))) = None).
  { destruct (console_kit_cookie (session st1)); [| done].
    cbn [cookie_layer last_binding]. rewrite decide_False; [done | set_solver]. }
  rewrite Hcookie.
  unfold baseline. cbn [last_binding].
  repeat (rewrite decide_False by set_solver). reflexivity.
Qed.

Lemma preset_variable_reaches_child_witness :
  let st := (session_set_env "DISPLAY" ":0" (mkState alice_session [])).2 in
  let st1 := (session_start session_class root_world st).2 in
  let st2 := (session_run root_world st1).2 in
  environment st2 !! "DISPLAY" = Some ":0".
Proof.
  intros st st1 st2.
  assert (H1 : session_start session_class root_world st = (Ret true, st1))
    by (vm_compute; reflexivity).
  assert (H2 : session_run root_world st1 = (Ret tt, st2))
    by (vm_compute; reflexivity).
  rewrite (preset_variable_reaches_child root_world st st1 st2 alice_pam
             "DISPLAY" eq_refl H1 H2).
  - vm_compute. reflexivity.
  - name_not_in_list.
  - vm_compute. reflexivity.
  - vm_compute. reflexivity.
Defined.

(** X9: after a start that succeeded the stored cookie is the registrar's
    answer (root) or the inherited [XDG_SESSION_COOKIE] (otherwise); a
    stored cookie is exported as [XDG_SESSION_COOKIE] of the session, and
    without a cookie the variable is left as it was, not removed. *)
Theorem start_exports_cookie (w : World) (st st1 : State) (a : PAMSession) :
  authentication (session st) = Some a ->
  session_start session_class w st = (Ret true, st1) ->
  console_kit_cookie (session st1) = stored_cookie w (session st) a
  /\ environment st1 !! "XDG_SESSION_COOKIE"
     = match console_kit_cookie (session st1) with
       | Some cookie => Some cookie
       | None => environment st !! "XDG_SESSION_COOKIE"
       end.
Proof.
  intros Ha Hstart.
  destruct (session_start_success_inv w st st1 a Ha Hstart)
    as (cmd & abs & Hc & Habs & Hps & ->).
  unfold environment.
  cbn [session console_kit_cookie set_running registered with_parent
       parent_instance env seeded].
  rewrite stored_cookie_seeded. split; [done |].
  destruct (stored_cookie w (session st) a) as [c |].
  - by rewrite lookup_insert_eq.
  - rewrite overlay_lookup. unfold baseline. cbn [last_binding].
    repeat (rewrite decide_False by done). reflexivity.
Qed.

Lemma start_exports_cookie_witness :
  let st1 := (session_start session_class user_world
                (mkState alice_session [])).2 in
  console_kit_cookie (session st1) = Some "ck-0"
  /\ environment st1 !! "XDG_SESSION_COOKIE" = Some "ck-0".
Proof.
  intros st1.
  assert (H1 : session_start session_class user_world
                 (mkState alice_session []) = (Ret true, st1))
    by (vm_compute; reflexivity).
  destruct (start_exports_cookie user_world (mkState alice_session []) st1
              alice_pam eq_refl H1) as (Hcookie & Henv).
  split.
  - rewrite Hcookie. vm_compute. reflexivity.
  - rewrite Henv, Hcookie. vm_compute. reflexivity.
Defined.

(** X10: a start of the base class always returns, and returns [TRUE]
    exactly when authentication and command are set, the program is found
    and the launch works; what the registrar answers plays no part (a
    refused registration does not fail the start).  The process runs
    afterwards if the start succeeded or it ran before. *)
Theorem session_start_result (w : World) (st : State) :
  let r := session_start session_class w st in
  r.1 = Ret (start_succeeds w (session st))
  /\ is_running (parent_instance (session r.2))
     = start_succeeds w (session st)
       || is_running (parent_instance (session st)).
Proof.
  cbv zeta. unfold start_succeeds.
  destruct (authentication (session st)) as [a |] eqn:Ha.
  - destruct (command (session st)) as [cmd |] eqn:Hc.
    + rewrite (session_start_seeds session_class w st a cmd Ha Hc).
      change (dispatch_start session_class w)
        with (session_real_start session_class w).
      destruct (get_absolute_command w cmd) as [abs |] eqn:Habs.
      * rewrite (session_real_start_resolved w _ a cmd abs); [| done..].
        cbv zeta. by destruct (process_start_result w).
      * by rewrite (session_real_start_not_found _ w _ cmd).
    + unfold session_start, bind, get_session. by rewrite Ha, Hc.
  - unfold session_start, bind, get_session. by rewrite Ha.
Qed.

(** ** The life cycle *)

Lemma session_stop_result (klass : SessionClass) (st : State) :
  session_stop klass st
  = if is_running (parent_instance (session st))
    then (Ret false,
          mkState (klass_cleanup klass (session st))
                  (trace st ++ [EvCleanup; EvProcessSignal SIGTERM]))
    else (Ret true, st).
Proof.
  unfold session_stop, process_get_is_running, bind, get_session, ret.
  cbn [fst snd].
  destruct (is_running (parent_instance (session st))); cbn [negb]; [| done].
  unfold call_cleanup, process_signal, emit, modify_session, bind.
  cbn [session trace]. by rewrite <- app_assoc.
Qed.

(** X11: the whole life of a session that started: [session_stop] returns
    [FALSE], and once [session_stopped] has run a further [session_stop]
    returns [TRUE] and changes nothing.  Over that life PAM is opened once
    and closed once, the process is started once and signalled once, and
    ConsoleKit is asked to close exactly when root stored a cookie. *)
Theorem session_lifecycle (w : World) (st st1 : State) (a : PAMSession) :
  authentication (session st) = Some a ->
  session_start session_class w st = (Ret true, st1) ->
  let stopping := session_stop session_class st1 in
  let st3 := (session_stopped w stopping.2).2 in
  stopping.1 = Ret false
  /\ is_running (parent_instance (session st3)) = false
  /\ session_stop session_class st3 = (Ret true, st3)
  /\ exists evs,
       trace st3 = trace st ++ evs
       /\ calls is_pam_open evs = 1%nat
       /\ calls is_pam_close evs = 1%nat
       /\ calls is_process_start evs = 1%nat
       /\ calls is_signal evs = 1%nat
       /\ calls is_ck_close evs
          = (if (getuid w =? 0)
                && bool_decide (is_Some (stored_cookie w (session st) a))
             then 1%nat else 0%nat).
Proof.
  intros Ha Hstart.
  destruct (session_start_success_inv w st st1 a Ha Hstart)
    as (cmd & abs & Hc & Habs & Hps & ->).
  cbv zeta. rewrite session_stop_result.
  cbn [session trace set_running with_parent parent_instance is_running
       fst snd].
  rewrite session_stopped_result.
  cbn [session trace set_running with_parent parent_instance is_running
       fst snd session_class klass_cleanup session_cleanup].
  split; [done |]. split; [done |]. split.
  - rewrite session_stop_result.
    cbn [session set_running with_parent parent_instance is_running]. done.
  - eexists. split.
    { rewrite <- !app_assoc. reflexivity. }
    change (console_kit_cookie
              (session_cleanup
                 (set_running true
                    (registered w abs a
                       (seeded (pam_session_get_user a) (session st))))))
      with (stored_cookie w (session st) a).
    rewrite !calls_app. unfold opening_events, rollback_events.
    destruct (getuid w =? 0), (stored_cookie w (session st) a);
      by repeat split.
Qed.

Lemma session_lifecycle_witness :
  let st1 := (session_start session_class root_world
                (mkState alice_session [])).2 in
  let st3 := (session_stopped root_world
                (session_stop session_class st1).2).2 in
  (session_stop session_class st1).1 = Ret false
  /\ session_stop session_class st3 = (Ret true, st3).
Proof.
  intros st1 st3.
  assert (H1 : session_start session_class root_world
                 (mkState alice_session []) = (Ret true, st1))
    by (vm_compute; reflexivity).
  destruct (session_lifecycle root_world (mkState alice_session []) st1
              alice_pam eq_refl H1) as (Hstop & _ & Hagain & _).
  split; [exact Hstop | exact Hagain].
Defined.

(** ** More on the child *)

Lemma calls_bystanders (kind : Event -> bool) (l : list Event) :
  (forall e, is_bystander e = true -> kind e = false) ->
  forallb is_bystander l = true ->
  calls kind l = 0%nat.
Proof. intros Hkind Hl. unfold calls. by rewrite filter_bystanders. Qed.

(** X12: the fate of the child depends on [chdir] and, for root, on the
    three calls of the identity change, and on nothing else: it reaches the
    execution of the command when they succeed and leaves with
    [EXIT_FAILURE] otherwise; failing to open a log file or to become a
    session leader is not fatal.  A child not run by root makes no
    identity-change call at all; one run by root makes them up to the
    first that fails. *)
Theorem session_run_outcome (w : World) (st : State) (a : PAMSession) :
  authentication (session st) = Some a ->
  let u := pam_session_get_user a in
  let r := session_run w st in
  r.1 = (if run_survives w u then Ret tt else Exit EXIT_FAILURE)
  /\ exists evs,
       trace r.2 = trace st ++ evs
       /\ calls is_exec evs = (if run_survives w u then 1%nat else 0%nat)
       /\ calls is_identity_change evs
          = if (sys_chdir w (user_get_home_directory u) =? 0)
               && (getuid w =? 0)
            then (identity_progress w u).1 else 0%nat.
Proof.
  intros Ha. cbv zeta.
  rewrite (session_run_result w st a Ha). cbv zeta.
  set (u := pam_session_get_user a).
  pose proof (run_prelude_bystanders w (session st) u) as Hpre.
  assert (Hlate : forallb is_bystander
            (if log_file_as_user (session st)
             then log_file_events w (session st) else []) = true).
  { destruct (log_file_as_user (session st)); [| done].
    apply log_file_events_bystanders. }
  unfold run_survives.
  destruct (sys_chdir w (user_get_home_directory u) =? 0);
    cbn [negb andb fst snd trace].
  - destruct (getuid w =? 0) eqn:Huid; cbn [negb orb fst snd].
    + unfold identity_progress.
      destruct (sys_initgroups w (user_get_name u) (user_get_gid u) <? 0);
        [| destruct (sys_setgid w (user_get_gid u) =? 0);
           [destruct (sys_setuid w (user_get_uid u) =? 0) |]];
        cbn [negb fst snd trace take identity_change];
        (split; [done |]); eexists; (split; [reflexivity |]);
        rewrite !calls_app,
          !(calls_bystanders _ _ bystander_not_exec Hpre),
          !(calls_bystanders _ _ bystander_not_identity_change Hpre),
          ?(calls_bystanders _ _ bystander_not_exec Hlate),
          ?(calls_bystanders _ _ bystander_not_identity_change Hlate);
        by split.
    + cbn [take]. split; [done |]. eexists. split; [reflexivity |].
      rewrite !calls_app,
        !(calls_bystanders _ _ bystander_not_exec Hpre),
        !(calls_bystanders _ _ bystander_not_identity_change Hpre),
        !(calls_bystanders _ _ bystander_not_exec Hlate),
        !(calls_bystanders _ _ bystander_not_identity_change Hlate).
      by split.
  - split; [done |]. eexists. split; [reflexivity |].
    rewrite !calls_app,
      !(calls_bystanders _ _ bystander_not_exec Hpre),
      !(calls_bystanders _ _ bystander_not_identity_change Hpre).
    by split.
Qed.

Lemma session_run_outcome_witness :
  (session_run root_world_no_open (mkState alice_logged_session [])).1 = Ret tt
  /\ (session_run user_world (mkState alice_session [])).1 = Ret tt.
Proof.
  split.
  - exact (proj1 (session_run_outcome root_world_no_open
                    (mkState alice_logged_session []) alice_pam eq_refl)).
  - exact (proj1 (session_run_outcome user_world
                    (mkState alice_session []) alice_pam eq_refl)).
Defined.

Lemma identity_progress_complete (w : World) (u : User) :
  (identity_progress w u).2 = true -> (identity_progress w u).1 = 3%nat.
Proof.
  unfold identity_progress.
  destruct (sys_initgroups w (user_get_name u) (user_get_gid u) <? 0);
    [done |].
  destruct (sys_setgid w (user_get_gid u) =? 0); [| done].
  by destruct (sys_setuid w (user_get_uid u) =? 0).
Qed.

Lemma log_file_events_open (w : World) (s : Session) (path : string) :
  log_file s = Some path ->
  path <> "/dev/null" ->
  List.filter is_log_open_or_identity_change (log_file_events w s)
  = [EvOpen path].
Proof.
  intros Hlog Hpath. unfold log_file_events. rewrite Hlog.
  apply String.eqb_neq in Hpath.
  cbn [List.filter].
  unfold is_log_open_or_identity_change at 1. cbn [is_log_open].
  rewrite Hpath. cbn [negb orb].
  by destruct (sys_open w path <? 0).
Qed.

(** X13: the log file is opened exactly once, and on the side of the
    identity change that decides who owns it: before the three calls when
    the file is not to be the user's, after them when it is. *)
Theorem log_file_opened_on_the_right_side (w : World) (st : State)
  (a : PAMSession) (path : string) :
  authentication (session st) = Some a ->
  log_file (session st) = Some path ->
  path <> "/dev/null" ->
  run_survives w (pam_session_get_user a) = true ->
  let u := pam_session_get_user a in
  let ids := if getuid w =? 0 then identity_change u else [] in
  exists evs,
    trace (session_run w st).2 = trace st ++ evs
    /\ List.filter is_log_open_or_identity_change evs
       = if log_file_as_user (session st)
         then ids ++ [EvOpen path]
         else EvOpen path :: ids.
Proof.
  intros Ha Hlog Hpath Hrun. cbv zeta.
  rewrite (session_run_result w st a Ha). cbv zeta.
  set (u := pam_session_get_user a) in *.
  unfold run_survives in Hrun. apply andb_true_iff in Hrun as [Hchdir Hids].
  rewrite Hchdir. cbn [negb].
  assert (Hprogress :
    (if getuid w =? 0 then identity_progress w u else (0%nat, true)).2 = true
    /\ take (if getuid w =? 0 then identity_progress w u else (0%nat, true)).1
            (identity_change u)
       = if getuid w =? 0 then identity_change u else []).
  { destruct (getuid w =? 0); [| done]. simpl in Hids.
    by rewrite (identity_progress_complete w u Hids). }
  destruct Hprogress as [-> ->]. cbn [snd trace].
  eexists. split; [reflexivity |].
  pose proof (log_file_events_open w (session st) path Hlog Hpath) as Hopen.
  unfold run_prelude. rewrite !List.filter_app.
  destruct (log_file_as_user (session st)); rewrite ?Hopen;
    destruct (getuid w =? 0); reflexivity.
Qed.

Lemma log_file_opened_on_the_right_side_witness :
  exists evs,
    trace (session_run root_world (mkState alice_logged_session [])).2
    = [] ++ evs
    /\ List.filter is_log_open_or_identity_change evs
       = identity_change alice ++ [EvOpen "/home/alice/.xsession-errors"].
Proof.
  assert (Hpath : "/home/alice/.xsession-errors" <> "/dev/null")
    by discriminate.
  exact (log_file_opened_on_the_right_side root_world
           (mkState alice_logged_session []) alice_pam
           "/home/alice/.xsession-errors" eq_refl eq_refl Hpath eq_refl).
Defined.





(** ** The registration *)





(** A uid above the largest [gint32] is sent wrapped. *)
Example gint32_wraps : gint32 3000000000 = -1294967296.
Proof. reflexivity. Qed.



(** ** Invariants of the calls of session.h *)

Section Respects.

Context (R : relation State) `{!PreOrder R}.

Lemma respects_ret {A} (x : A) : respects R (ret x).
Proof. intros st. reflexivity. Qed.

Lemma respects_fault {A} : respects R (@fault A).
Proof. intros st. reflexivity. Qed.

Lemma respects_get_session : respects R get_session.
Proof. intros st. reflexivity. Qed.

Lemma respects_bind {A B} (m : M A) (k : A -> M B) :
  respects R m -> (forall x, respects R (k x)) -> respects R (bind m k).
Proof.
  intros Hm Hk st. unfold bind. specialize (Hm st).
  destruct (m st) as [[x | c |] st']; cbn [snd] in *; [| done..].
  etrans; [exact Hm | apply Hk].
Qed.

Lemma respects_when (b : bool) (m : M unit) :
  respects R m -> respects R (when b m).
Proof. intros Hm. destruct b; [done | apply respects_ret]. Qed.

(** The setup hook of the base class does nothing: its dispatch is all
    there is. *)
Lemma respects_call_setup :
  respects R (emit EvSetup) -> respects R (call_setup session_class).
Proof. intros He st. exact (He st). Qed.

Lemma respects_set_env_from_entries (pam_env : list string) :
  (forall name value, respects R (session_set_env name value)) ->
  respects R (set_env_from_entries pam_env).
Proof.
  intros Hset. induction pam_env as [| entry rest IH]; [apply respects_ret |].
  cbn [set_env_from_entries]. apply respects_bind; [| by intros _].
  destruct (GLib.g_strsplit_2 entry "=") as [| name [| value tl]];
    [apply respects_ret.. | apply Hset].
Qed.

Lemma after_calls_respects (w : World) (allowed : Call -> bool)
  (history : list Call) (st : State) :
  (forall c, allowed c = true -> respects R (call w c)) ->
  forallb allowed history = true ->
  R st (after_calls w history st).
Proof.
  intros Hcall. revert st.
  induction history as [| c history IH]; intros st Hall; [reflexivity |].
  cbn [forallb] in Hall. apply andb_true_iff in Hall as [Hc Hall].
  change (after_calls w (c :: history) st)
    with (after_calls w history (call w c st).2).
  etrans; [exact (Hcall c Hc st) | by apply IH].
Qed.

End Respects.

#[local] Instance on_session_preorder (Rs : relation Session)
  `{!PreOrder Rs} : PreOrder (on_session Rs).
Proof.
  split.
  - intros st. unfold on_session. reflexivity.
  - intros st1 st2 st3 H12 H23. unfold on_session in *. by etrans.
Qed.

Section OnSession.

Context (Rs : relation Session) `{!PreOrder Rs}.

Lemma respects_emit_on_session (e : Event) :
  respects (on_session Rs) (emit e).
Proof. intros st. unfold on_session. reflexivity. Qed.

Lemma respects_exit_on_session {A} (c : Z) :
  respects (on_session Rs) (@_exit A c).
Proof. intros st. unfold on_session. reflexivity. Qed.

Lemma respects_modify_on_session (f : Session -> Session) :
  (forall s, Rs s (f s)) -> respects (on_session Rs) (modify_session f).
Proof. intros Hf st. apply Hf. Qed.

End OnSession.

#[local] Instance variables_kept_preorder : PreOrder variables_kept.
Proof.
  split.
  - by intros s name.
  - intros s1 s2 s3 H12 H23 name Hname. by apply H23, H12.
Qed.

#[local] Instance same_configuration_preorder : PreOrder same_configuration.
Proof.
  split.
  - by intros s.
  - intros s1 s2 s3 (?&?&?&?&?&?) (?&?&?&?&?&?).
    repeat split; congruence.
Qed.

#[local] Instance cookie_kept_preorder : PreOrder cookie_kept.
Proof.
  split.
  - by intros s.
  - intros s1 s2 s3 H12 H23. unfold cookie_kept in *. congruence.
Qed.

#[local] Instance same_console_kit_calls_preorder :
  PreOrder same_console_kit_calls.
Proof.
  split.
  - by intros st.
  - intros st1 st2 st3 H12 H23. unfold same_console_kit_calls in *. congruence.
Qed.

Lemma respects_emit_console_kit (e : Event) :
  is_console_kit e = false -> respects same_console_kit_calls (emit e).
Proof.
  intros He st. unfold same_console_kit_calls. cbn [emit snd trace].
  rewrite List.filter_app. cbn [List.filter]. rewrite He. apply app_nil_r.
Qed.

Lemma respects_exit_console_kit {A} (c : Z) :
  respects same_console_kit_calls (@_exit A c).
Proof.
  intros st. unfold same_console_kit_calls. cbn [_exit snd trace].
  rewrite List.filter_app. apply app_nil_r.
Qed.

Lemma respects_modify_console_kit (f : Session -> Session) :
  respects same_console_kit_calls (modify_session f).
Proof. by intros st. Qed.

Lemma variables_kept_insert (name value : string) (s : Session) :
  variables_kept s (with_env (<[name := value]> (env (parent_instance s))) s).
Proof.
  intros k Hk. cbn [with_env with_parent env parent_instance].
  rewrite lookup_insert. by destruct (decide (name = k)).
Qed.

(** Open the functions of session.c and of its collaborators, down to the
    primitives of the monad. *)
Ltac respects_unfold :=
  unfold call;
  unfold session_start, session_lock, session_unlock, session_stop,
    session_stopped, session_run;
  try change (dispatch_start session_class ?w)
    with (session_real_start session_class w);
  unfold session_real_start, change_to_user, setup_log_file,
    set_env_from_authentication, set_locale, insert_utility_path,
    call_cleanup;
  unfold session_get_env, session_set_env, set_console_kit_cookie,
    the_authentication, process_set_command, process_set_env,
    process_get_env, process_get_is_running, process_start, process_signal,
    process_stopped, process_run, pam_session_open, pam_session_setup,
    pam_session_close, ck_open, ck_close_session, ck_lock_session,
    ck_unlock_session, g_open, dup2, close, setsid, chdir, initgroups,
    setgid, setuid.

(** Take a computation apart along its binds and case distinctions, down
    to the primitives, leaving what a change of the session has to keep. *)
Ltac respects_step :=
  match goal with
  | H : (getuid ?w =? 0) = false |- context [getuid ?w =? 0] =>
      rewrite H; cbv beta iota
  | |- respects _ (bind _ _) =>
      apply respects_bind; try exact _; [| intros ?]
  | |- respects _ (when false _) => apply respects_ret; exact _
  | |- respects _ (when _ _) => apply respects_when; try exact _
  | |- respects _ (ret _) => apply respects_ret; exact _
  | |- respects _ fault => apply respects_fault; exact _
  | |- respects _ get_session => apply respects_get_session; exact _
  | |- respects _ (call_setup session_class) =>
      apply respects_call_setup; try exact _
  | |- respects _ (set_env_from_entries _) =>
      apply respects_set_env_from_entries; try exact _; intros ? ?
  | |- respects _ (session_set_env _ _) =>
      unfold session_set_env, process_set_env
  | |- respects (on_session _) (emit _) =>
      apply respects_emit_on_session; exact _
  | |- respects (on_session _) (_exit _) =>
      apply respects_exit_on_session; exact _
  | |- respects (on_session _) (modify_session _) =>
      apply respects_modify_on_session; intros ?
  | |- respects same_console_kit_calls (emit _) =>
      apply respects_emit_console_kit; reflexivity
  | |- respects same_console_kit_calls (_exit _) =>
      apply respects_exit_console_kit
  | |- respects same_console_kit_calls (modify_session _) =>
      apply respects_modify_console_kit
  | |- respects _ (match ?x with _ => _ end) => destruct x
  end.

Lemma call_keeps_variables (w : World) (c : Call) :
  respects (on_session variables_kept) (call w c).
Proof.
  destruct c; respects_unfold; repeat respects_step;
    first [intros ? H; exact H | apply variables_kept_insert].
Qed.

Lemma call_keeps_configuration (w : World) (c : Call) :
  is_lifecycle c = true ->
  respects (on_session same_configuration) (call w c).
Proof.
  destruct c; intros Hc; try discriminate Hc;
    respects_unfold; repeat respects_step; by repeat split.
Qed.

Lemma call_keeps_cookie (w : World) (c : Call) :
  negb (is_start c) = true ->
  respects (on_session cookie_kept) (call w c).
Proof.
  destruct c; intros Hc; try discriminate Hc;
    respects_unfold; repeat respects_step; done.
Qed.

Lemma call_without_console_kit (w : World) (c : Call) :
  (getuid w =? 0) = false ->
  respects same_console_kit_calls (call w c).
Proof.
  intros Huid. destruct c; respects_unfold; repeat respects_step.
Qed.

(** X16: a display manager that is not root never talks to ConsoleKit:
    whatever calls of session.h are made on a session, in whatever order,
    no open, close, lock or unlock of a ConsoleKit session is added to the
    trace. *)
Theorem unprivileged_never_calls_console_kit (w : World)
  (history : list Call) (st : State) :
  getuid w <> 0 ->
  List.filter is_console_kit (trace (after_calls w history st))
  = List.filter is_console_kit (trace st).
Proof.
  intros Huid%Z.eqb_neq.
  apply (after_calls_respects same_console_kit_calls w (fun _ => true)).
  - intros c _. by apply call_without_console_kit.
  - by induction history.
Qed.

Lemma unprivileged_never_calls_console_kit_witness :
  List.filter is_console_kit
    (trace (after_calls user_world
              [CallStart; CallLock; CallUnlock; CallStop; CallStopped]
              (mkState alice_session [])))
  = [].
Proof.
  assert (Huid : getuid user_world <> 0) by (simpl; lia).
  exact (unprivileged_never_calls_console_kit user_world
           [CallStart; CallLock; CallUnlock; CallStop; CallStopped]
           (mkState alice_session []) Huid).
Defined.

(** X17: session.c never unsets a variable: one that is in the environment
    of a session is still in it (with whatever value) after any calls of
    session.h. *)
Theorem variables_never_lost (w : World) (history : list Call) (st : State)
  (name : string) :
  is_Some (environment st !! name) ->
  is_Some (environment (after_calls w history st) !! name).
Proof.
  revert name.
  apply (after_calls_respects (on_session variables_kept) w (fun _ => true)).
  - intros c _. apply call_keeps_variables.
  - by induction history.
Qed.

Lemma variables_never_lost_witness :
  let st := (session_set_env "DISPLAY" ":0" (mkState alice_session [])).2 in
  is_Some (environment
             (after_calls root_world [CallStart; CallRun; CallStopped] st)
           !! "DISPLAY").
Proof.
  intros st.
  apply (variables_never_lost root_world [CallStart; CallRun; CallStopped] st
           "DISPLAY").
  vm_compute. by eexists.
Defined.

(** X18: the life of a session does not touch its configuration: log file
    and its ownership flag, authentication, command, ConsoleKit parameters
    and greeter flag are after any sequence of start, lock, unlock, stop,
    stopped and run what the setters made them. *)
Theorem lifecycle_keeps_configuration (w : World) (history : list Call)
  (st : State) :
  forallb is_lifecycle history = true ->
  same_configuration (session st) (session (after_calls w history st)).
Proof.
  apply (after_calls_respects (on_session same_configuration) w is_lifecycle).
  intros c Hc. by apply call_keeps_configuration.
Qed.

Lemma lifecycle_keeps_configuration_witness :
  command (session (after_calls root_world
                      [CallStart; CallLock; CallStop; CallStopped; CallStart]
                      (mkState alice_logged_session [])))
  = Some "xterm -e top".
Proof.
  destruct (lifecycle_keeps_configuration root_world
              [CallStart; CallLock; CallStop; CallStopped; CallStart]
              (mkState alice_logged_session []) eq_refl)
    as (_ & _ & _ & Hcommand & _).
  exact Hcommand.
Defined.

(** X19: the stored cookie is written by a start and by nothing else: any
    calls of session.h other than [session_start] leave it as it is, the
    teardown of [session_stopped] included. *)
Theorem only_start_writes_cookie (w : World) (history : list Call)
  (st : State) :
  forallb (fun c => negb (is_start c)) history = true ->
  console_kit_cookie (session (after_calls w history st))
  = console_kit_cookie (session st).
Proof.
  apply (after_calls_respects (on_session cookie_kept) w
           (fun c => negb (is_start c))).
  intros c Hc. by apply call_keeps_cookie.
Qed.

Lemma only_start_writes_cookie_witness :
  console_kit_cookie
    (session (after_calls root_world
                [CallLock; CallStop; CallStopped; CallRun;
                 CallSetCommand None]
                (mkState running_session [])))
  = Some "ck-1".
Proof.
  exact (only_start_writes_cookie root_world
           [CallLock; CallStop; CallStopped; CallRun; CallSetCommand None]
           (mkState running_session []) eq_refl).
Defined.
